(** * scrap_n_answer.py: link discovery, page scraping, detail extraction

    A shallow embedding of [src/scrap_n_answer.py].  The script is glue
    around three libraries (requests, BeautifulSoup, the Gemini client), so
    the embedding has four layers:

    - [Str]: a Python [str], a sequence of Unicode code points;
    - [PyStr]: the Python string operations the script uses ([str.lower],
      [in], [str.strip], [str.join], slicing).  [str.strip] knows the white
      space of Unicode; [str.lower] follows CPython's algorithm, with the rows
      of the character database for the code points below 128 written out and
      the other rows taken from a table ([PyStr.Ucd]) that comes with the
      environment;
    - [Bs4]: the parsed document as a tree of objects, each with an identity,
      with [find_all], [extract] and [stripped_strings] acting on it;
    - [Py]: exceptions, and a monad threading the outside world, the console
      and the file system through the script's functions.

    The network, the HTML parser, [urljoin], the iteration order of a Python
    [set], the random generator, the model service and the character database
    are the environment ([Py.Env]): the functions of the script are defined
    over an arbitrary one. *)

From Stdlib Require Import NArith ZArith Strings.Byte.
From stdpp Require Import gmap strings list pretty.

(** ** Strings of code points *)

Module Str.

Inductive string : Type :=
| EmptyString
| String (c : N) (s : string).

Fixpoint append (s1 s2 : string) : string :=
  match s1 with
  | EmptyString => s2
  | String c s1' => String c (append s1' s2)
  end.

Fixpoint length (s : string) : nat :=
  match s with
  | EmptyString => 0
  | String _ s' => S (length s')
  end.

(** The strings of [parts] with [sep] between two of them. *)
Fixpoint concat (sep : string) (parts : list string) : string :=
  match parts with
  | [] => EmptyString
  | [x] => x
  | x :: rest => append x (append sep (concat sep rest))
  end.

(** [s1] is a prefix of [s2]. *)
Fixpoint prefix (s1 s2 : string) : bool :=
  match s1, s2 with
  | EmptyString, _ => true
  | String _ _, EmptyString => false
  | String a s1', String b s2' => if N.eq_dec a b then prefix s1' s2' else false
  end.

(** The first [n] characters of [s], all of [s] where it has fewer. *)
Fixpoint take (n : nat) (s : string) {struct s} : string :=
  match s, n with
  | String c s', S n' => String c (take n' s')
  | _, _ => EmptyString
  end.

Fixpoint eqb (s1 s2 : string) : bool :=
  match s1, s2 with
  | EmptyString, EmptyString => true
  | String a s1', String b s2' => (a =? b)%N && eqb s1' s2'
  | _, _ => false
  end.

Fixpoint chars (s : string) : list N :=
  match s with
  | EmptyString => []
  | String c s' => c :: chars s'
  end.

Fixpoint of_chars (cs : list N) : string :=
  match cs with
  | [] => EmptyString
  | c :: cs' => String c (of_chars cs')
  end.

(** A string of 8-bit characters, read as code points. *)
Fixpoint of_ascii_string (s : String.string) : string :=
  match s with
  | String.EmptyString => EmptyString
  | String.String a s' => String (Ascii.N_of_ascii a) (of_ascii_string s')
  end.

(** Literals: the bytes between the quotes, each below 128, are the code
    points. *)
Definition of_bytes (bytes : list Byte.byte) : option string :=
  foldr (fun b acc =>
           let c := Byte.to_N b in
           if (c <? 128)%N then String c <$> acc else None)
        (Some EmptyString) bytes.

Fixpoint to_bytes (s : string) : option (list Byte.byte) :=
  match s with
  | EmptyString => Some []
  | String c s' =>
      if (c <? 128)%N
      then b ← Byte.of_N c; (b ::.) <$> to_bytes s'
      else None
  end.

#[global] Instance string_eq_dec : EqDecision string.
Proof. solve_decision. Defined.

#[global] Program Instance string_countable : Countable string :=
  inj_countable' chars of_chars _.
Next Obligation. intros s. induction s as [|c s IH]; simpl; [done | now rewrite IH]. Qed.

End Str.

Declare Scope py_scope.
Delimit Scope py_scope with py.
String Notation Str.string Str.of_bytes Str.to_bytes : py_scope.
Infix "+:+" := Str.append (at level 60, right associativity) : py_scope.
Arguments Str.append : simpl never.

Abbreviation string := Str.string.
Abbreviation EmptyString := Str.EmptyString.
Abbreviation String := Str.String.

Open Scope py_scope.
Open Scope list_scope.

(** ** Python strings *)

Module PyStr.

(** *** The character database *)

(** [A] to [Z]. *)
Definition is_ascii_capital (c : N) : bool := ((65 <=? c) && (c <=? 90))%N.

(** [a] to [z]. *)
Definition is_ascii_small (c : N) : bool := ((97 <=? c) && (c <=? 122))%N.

(** The rows of the Unicode character database that [str.lower] and
    [str.isupper] read, for the code points from 128 on: the full lower-case
    mapping of a code point, and whether it is cased, case-ignorable, upper
    case.  The rows differ from one version of Unicode to the next; in all of
    them no code point is mapped to one of [A] to [Z]. *)
Record Ucd : Type := mkUcd {
  tolower_full : N -> list N;
  cased : N -> bool;
  case_ignorable : N -> bool;
  uppercase : N -> bool;
  tolower_full_no_capital :
    forall c c', (128 <= c)%N -> c' ∈ tolower_full c -> is_ascii_capital c' = false;
}.

Section Database.
Context (db : Ucd).

(** The rows below 128 are the same in every version. *)
Definition ascii_lower (c : N) : N := if is_ascii_capital c then (c + 32)%N else c.

(** The full lower-case mapping of [c]. *)
Definition to_lower (c : N) : list N :=
  if (c <? 128)%N then [ascii_lower c] else tolower_full db c.

Definition is_cased (c : N) : bool :=
  if (c <? 128)%N then is_ascii_capital c || is_ascii_small c else cased db c.

(** Below 128: the apostrophe, the full stop, the colon, the circumflex and
    the grave accent. *)
Definition is_case_ignorable (c : N) : bool :=
  if (c <? 128)%N then bool_decide (c ∈ [39; 46; 58; 94; 96]%N)
  else case_ignorable db c.


(** *** [s.lower()] *)

(** The capital sigma, and the two small ones it is mapped to. *)
Definition SIGMA : N := 931.
Definition FINAL_SIGMA : N := 962.
Definition SMALL_SIGMA : N := 963.

(** What follows a sigma lets it be final: skipping the case-ignorable
    characters, the string ends or a character that is not cased comes. *)
Fixpoint final_after (s : string) : bool :=
  match s with
  | EmptyString => true
  | String c s' => if is_case_ignorable c then final_after s' else negb (is_cased c)
  end.

(** [before] tells whether, going back from here and skipping the
    case-ignorable characters, a cased character is found. *)
Fixpoint lower_from (before : bool) (s : string) : string :=
  match s with
  | EmptyString => EmptyString
  | String c s' =>
      let mapped :=
        if (c =? SIGMA)%N
        then [if before && final_after s' then FINAL_SIGMA else SMALL_SIGMA]
        else to_lower c in
      Str.of_chars mapped
      +:+ lower_from (if is_case_ignorable c then before else is_cased c) s'
  end.

Definition lower (s : string) : string := lower_from false s.

End Database.

(** [needle in hay] *)
Fixpoint contains (needle hay : string) : bool :=
  Str.prefix needle hay ||
  match hay with
  | EmptyString => false
  | String _ hay' => contains needle hay'
  end.

(** [c.isspace()]: the white space of Unicode. *)
Definition isspace (c : N) : bool :=
  (((9 <=? c) && (c <=? 13)) || ((28 <=? c) && (c <=? 32))
   || (c =? 133) || (c =? 160) || (c =? 5760)
   || ((8192 <=? c) && (c <=? 8202))
   || (c =? 8232) || (c =? 8233) || (c =? 8239) || (c =? 8287)
   || (c =? 12288))%N.

Fixpoint lstrip (s : string) : string :=
  match s with
  | EmptyString => EmptyString
  | String c s' => if isspace c then lstrip s' else s
  end.

Fixpoint rstrip (s : string) : string :=
  match s with
  | EmptyString => EmptyString
  | String c s' =>
      match rstrip s' with
      | EmptyString => if isspace c then EmptyString else String c EmptyString
      | r => String c r
      end
  end.

(** [s.strip()] *)
Definition strip (s : string) : string := rstrip (lstrip s).

(** [sep.join(parts)] *)
Definition join (sep : string) (parts : list string) : string :=
  Str.concat sep parts.

(** [s[:n]] *)
Definition slice_to (n : nat) (s : string) : string := Str.take n s.

(** [len(s)] *)
Definition len (s : string) : nat := Str.length s.

(** The quotation mark, and the line feed. *)
Definition dq : string := String 34 EmptyString.
Definition nl : string := String 10 EmptyString.

End PyStr.

(** ** The parsed document *)

Module Bs4.

(** An object of the tree.  [ident] is the object's identity: [extract]
    removes *that* object, wherever it hangs.  [NavigableString] is a text
    node; [OtherString] stands for the string classes that
    [stripped_strings] passes over (Comment, Doctype, Declaration, and the
    Script, Stylesheet and TemplateString containers). *)
#[local] Unset Elimination Schemes.
Inductive node : Type :=
| NavigableString (ident : nat) (s : string)
| OtherString (ident : nat) (s : string)
| Tag (ident : nat) (name : string) (attrs : gmap string string)
      (contents : list node).
#[local] Set Elimination Schemes.

Definition ident (n : node) : nat :=
  match n with
  | NavigableString i _ | OtherString i _ | Tag i _ _ _ => i
  end.

(** [n.descendants]: every object below [n], in document order. *)
Fixpoint descendants (n : node) : list node :=
  match n with
  | Tag _ _ _ contents => flat_map (fun c => c :: descendants c) contents
  | _ => []
  end.

Definition idents (root : node) : list nat := ident <$> descendants root.

(** [tag.get(key)] *)
Definition get (n : node) (key : string) : option string :=
  match n with
  | Tag _ _ attrs _ => attrs !! key
  | _ => None
  end.

(** [root.find_all(names)], also written [root(names)]: the tags below
    [root] whose name is one of [names], in document order. *)
Definition find_all (names : list string) (root : node) : list node :=
  filter (fun n => match n with
                   | Tag _ name _ _ => bool_decide (name ∈ names)
                   | _ => false
                   end = true)
         (descendants root).

(** [root.find_all(name, href=True)]: the tags called [name] that carry
    the attribute (whatever its value). *)
Definition find_all_with (name attr : string) (root : node) : list node :=
  filter (fun n => is_Some (get n attr)) (find_all [name] root).

(** The tree left under [root] when the object [i] is taken out of its
    parent's contents. *)
Fixpoint remove (i : nat) (root : node) : node :=
  match root with
  | Tag j name attrs contents =>
      Tag j name attrs
          (flat_map (fun c => if (ident c =? i)%nat then [] else [remove i c])
                    contents)
  | _ => root
  end.

(** [tag.extract()], as seen from [root]. *)
Definition extract (tag : node) (root : node) : node := remove (ident tag) root.

(** [root.stripped_strings]: the text nodes below [root], in document
    order, each stripped, the ones that strip to nothing left out. *)
Definition stripped_strings (root : node) : list string :=
  flat_map (fun d => match d with
                     | NavigableString _ s =>
                         let s' := PyStr.strip s in
                         if (PyStr.len s' =? 0)%nat then [] else [s']
                     | _ => []
                     end)
           (descendants root).

End Bs4.

(** ** Exceptions, the environment, and the monad of the script *)

Module Py.

(** The exception classes that matter to the script: those of requests
    (all derive from [RequestException]), Python's own lookup and value
    errors, and [OtherError] for any class outside the requests hierarchy
    (the model client's errors, for one). *)
Inductive exc_class : Type :=
| RequestException | HTTPError | ConnectionError | Timeout | TooManyRedirects
| KeyError | IndexError | ValueError
| OtherError (name : string).

Record exception : Type := Exception { exc_type : exc_class; exc_msg : string }.

(** [isinstance(e, requests.RequestException)] *)
Definition is_RequestException (e : exception) : bool :=
  match exc_type e with
  | RequestException | HTTPError | ConnectionError | Timeout
  | TooManyRedirects => true
  | KeyError | IndexError | ValueError | OtherError _ => false
  end.

(** [str(e)] *)
Definition str (e : exception) : string := exc_msg e.

Inductive outcome (A : Type) : Type :=
| Return (a : A)
| Raise (e : exception).
Arguments Return {A} a.
Arguments Raise {A} e.

(** [requests.Response], the fields the script and [raise_for_status] read. *)
Record Response : Type := mkResponse {
  status_code : Z;
  reason : string;
  url : string;
  text : string;
}.

(** The model's reply; reading [response.text] may itself raise (a reply
    without a text part). *)
Record GenerateContentResponse : Type := mkReply {
  reply_text : outcome string;
}.

(** A CSV file: its rows, each a list of cells. *)
Definition csv : Type := list (list string).

(** What the script does not define and cannot control. *)
Record Env : Type := mkEnv {
  World : Type;
  (** [requests.get(url, timeout=t)] *)
  requests_get : string -> Z -> World -> outcome Response * World;
  (** [BeautifulSoup(markup, "html.parser")]: the root object *)
  BeautifulSoup : string -> outcome Bs4.node;
  (** [requests.compat.urljoin(base, url)]; it raises on a reference it
      cannot split (an unbalanced bracket in the host part, for one) *)
  urljoin : string -> string -> outcome string;
  (** [list(set(items))]: the order in which the set built from [items]
      is iterated *)
  list_set : list string -> list string;
  (** the index [random.choice] draws for a sequence of the given length *)
  randbelow : nat -> World -> nat * World;
  (** [genai.GenerativeModel(model).generate_content(prompt)] *)
  generate_content : string -> string -> World ->
                     outcome GenerateContentResponse * World;
  (** [time.sleep(seconds)] *)
  sleep : Z -> World -> World;
  (** opening the file at a path for writing, which the system may refuse *)
  open_write : string -> World -> outcome unit * World;
  (** the character database of the running Python *)
  ucd : PyStr.Ucd;
}.

(** A Python [set] holds each item once, in an order of its own. *)
Definition list_set_lawful (E : Env) : Prop :=
  forall items : list string,
    list_set E items ≡ₚ elements (list_to_set items : gset string).

(** The objects of one parsed document are distinct objects. *)
Definition fresh_idents (E : Env) : Prop :=
  forall markup root,
    BeautifulSoup E markup = Return root -> NoDup (Bs4.idents root).

Section Monad.
Context {E : Env}.

Record state : Type := mkState {
  world : World E;
  stdout : list string;            (* the lines printed so far *)
  files : gmap string csv;         (* the files written so far *)
}.

Definition M (A : Type) : Type := state -> outcome A * state.

Definition ret {A} (a : A) : M A := fun st => (Return a, st).

Definition bind {A B} (c : M A) (k : A -> M B) : M B :=
  fun st =>
    match c st with
    | (Return a, st') => k a st'
    | (Raise e, st') => (Raise e, st')
    end.

Definition raise {A} (e : exception) : M A := fun st => (Raise e, st).

(** [try: body  except <catches> as error: handler error] *)
Definition try_except {A} (body : M A) (catches : exception -> bool)
           (handler : exception -> M A) : M A :=
  fun st =>
    match body st with
    | (Return a, st') => (Return a, st')
    | (Raise e, st') => if catches e then handler e st' else (Raise e, st')
    end.

(** A result the world has no part in. *)
Definition lift {A} (o : outcome A) : M A := fun st => (o, st).

(** [print(line)] *)
Definition print (line : string) : M unit :=
  fun st => (Return tt, mkState (world st) (stdout st ++ [line]) (files st)).

(** A call into the world. *)
Definition call {A} (f : World E -> outcome A * World E) : M A :=
  fun st =>
    let '(r, w) := f (world st) in
    (r, mkState w (stdout st) (files st)).

(** Writing (or overwriting) a file. *)
Definition write_file (path : string) (content : csv) : M unit :=
  fun st =>
    (Return tt, mkState (world st) (stdout st) (<[path := content]> (files st))).

(** [for x in xs: acc = body acc x] *)
Fixpoint for_each {A S} (xs : list A) (body : S -> A -> M S) (acc : S) : M S :=
  match xs with
  | [] => ret acc
  | x :: xs' => bind (body acc x) (for_each xs' body)
  end.

(** The list a generator expression [f(x) for x in xs] yields. *)
Fixpoint generate {A B} (f : A -> M B) (xs : list A) : M (list B) :=
  match xs with
  | [] => ret []
  | x :: xs' => bind (f x) (fun y => bind (generate f xs') (fun ys => ret (y :: ys)))
  end.

End Monad.

Arguments state E : clear implicits.
Arguments M E A : clear implicits.

End Py.

Import Py.

Notation "x <- c ;; k" := (bind c (fun x => k))
  (at level 100, c at next level, k at level 200, right associativity).
Notation "c ;;; k" := (bind c (fun _ => k))
  (at level 100, k at level 200, right associativity).

(** ** pandas: a frame built from records, written as CSV *)

Module Pd.

(** A record as the script builds it: a [dict], keys in insertion order. *)
Definition dict : Type := list (string * string).

Definition dict_get (d : dict) (key : string) : option string :=
  snd <$> List.find (fun kv => Str.eqb (fst kv) key) d.

Record DataFrame : Type := mkFrame {
  columns : list string;
  rows : list (list string);
}.

(** The keys of the records, each once, in the order they first occur. *)
Fixpoint first_seen (seen keys : list string) : list string :=
  match keys with
  | [] => []
  | k :: keys' =>
      if bool_decide (k ∈ seen) then first_seen seen keys'
      else k :: first_seen (k :: seen) keys'
  end.

(** [pd.DataFrame(records)]: one column per key, one row per record; a
    record without some key has an empty cell there. *)
Definition DataFrame_of (records : list dict) : DataFrame :=
  let columns := first_seen [] (flat_map (map fst) records) in
  mkFrame columns
          (map (fun d => map (fun c => default EmptyString (dict_get d c)) columns)
               records).

(** The rows [df.to_csv(path, index=False)] writes: the header, then the
    data. *)
Definition to_csv_rows (df : DataFrame) : csv := columns df :: rows df.

End Pd.

(** ** The script *)

Section Script.
Context {E : Env}.

Definition MODELS : list string :=
  [ "gemini-2.0-pro-exp"; "gemini-1.5-pro"; "gemini-2.0-flash" ].

Definition URLS : list string :=
  [ "https://lenovo.com"; "https://www.gsk.com"; "https://www.tcs.com";
    "https://www.ford.com"; "https://www.siemens-energy.com";
    "https://www.americanexpress.com" ].

Definition RELEVANT_LINKS : list string :=
  [ "home"; "about"; "contact"; "services"; "products"; "Contact Us";
    "About Lenovo"; "Investors"; "Vehicles" ].

(** *** Library calls, as computations *)

(** [response.raise_for_status()]: statuses 400 to 599 raise [HTTPError]. *)
Definition raise_for_status (r : Response) : M E unit :=
  let status := status_code r in
  let describe (kind : string) :=
    Str.of_ascii_string (pretty status) +:+ " " +:+ kind +:+ " Error: " +:+ reason r
           +:+ " for url: " +:+ url r in
  if ((400 <=? status) && (status <? 500))%Z
  then raise (Exception HTTPError (describe "Client"))
  else if ((500 <=? status) && (status <? 600))%Z
  then raise (Exception HTTPError (describe "Server"))
  else ret tt.

(** [requests.get(url, timeout=10)] followed by [raise_for_status()]. *)
Definition fetch (url : string) : M E Response :=
  response <- call (requests_get E url 10) ;;
  raise_for_status response ;;;
  ret response.

(** [BeautifulSoup(markup, "html.parser")] *)
Definition parse (markup : string) : M E Bs4.node :=
  lift (BeautifulSoup E markup).

(** [tag[key]] *)
Definition getitem (tag : Bs4.node) (key : string) : M E string :=
  match Bs4.get tag key with
  | Some v => ret v
  | None => raise (Exception KeyError key)
  end.

(** [random.choice(seq)] *)
Definition random_choice (seq : list string) : M E string :=
  i <- call (fun w => let '(i, w') := randbelow E (length seq) w in (Return i, w')) ;;
  match seq !! i with
  | Some x => ret x
  | None => raise (Exception IndexError "list index out of range")
  end.

(** *** get_relevant_links *)

Definition get_relevant_links (base_url : string) : M E (list string) :=
  fetched <- try_except
               (response <- fetch base_url ;; ret (Some response))
               is_RequestException
               (fun error =>
                  print ("Error fetching " +:+ base_url +:+ ": " +:+ str error) ;;;
                  ret None) ;;
  match fetched with
  | None => ret []
  | Some response =>
      soup <- parse (text response) ;;
      links <- for_each (Bs4.find_all_with "a" "href" soup)
                 (fun links anchor =>
                    value <- getitem anchor "href" ;;
                    let href := PyStr.lower (ucd E) value in
                    if existsb (fun keyword => PyStr.contains keyword href)
                               RELEVANT_LINKS
                    then
                      full_url <- lift (urljoin E base_url href) ;;
                      let links := links ++ [full_url] in
                      print ("Found relevant link: " +:+ full_url) ;;;
                      ret links
                    else ret links)
                 [] ;;
      ret (list_set E links)
  end.

(** *** scrape_text *)

Definition REMOVED_TAGS : list string :=
  [ "script"; "style"; "header"; "footer"; "nav" ].

Definition scrape_text (url : string) : M E string :=
  fetched <- try_except
               (response <- fetch url ;; ret (Some response))
               is_RequestException
               (fun error =>
                  print ("Error scraping " +:+ url +:+ ": " +:+ str error) ;;;
                  ret None) ;;
  match fetched with
  | None => ret EmptyString
  | Some response =>
      soup <- parse (text response) ;;
      let soup := fold_left (fun root tag => Bs4.extract tag root)
                            (Bs4.find_all REMOVED_TAGS soup) soup in
      let text := PyStr.join " " (Bs4.stripped_strings soup) in
      ret (PyStr.slice_to 1000 text)
  end.

(** *** extract_details *)

Import PyStr.

Definition prompt_lines_before_text : list string :=
  [ EmptyString;
    "                Content:";
    "                    " ].

Definition prompt_lines_after_text : list string :=
  [ "                    You are a technical content writer for a person who is in the field of Market Research meaning";
    "                        he wants constantly wants data of many companies That is why he wants to know about the company";
    "                        -" +:+ dq +:+ "What is the company's mission statement or core values?" +:+ dq;
    "                        -" +:+ dq +:+ "What products or services does the company offer?" +:+ dq;
    "                        -" +:+ dq +:+ "When was the company founded, and who were the founders?" +:+ dq;
    "                        -" +:+ dq +:+ "Where is the company's headquarters located?" +:+ dq;
    "                        -" +:+ dq +:+ "Who are the key executives or leadership team members?" +:+ dq;
    "                        -" +:+ dq +:+ "Has the company received any notable awards or recognitions?" +:+ dq;
    "                        ";
    "                        ";
    "                        Output format should follow only text in csv format without any markdown elements and the first row should contain the questions and quoted for each question and answer and only one " +:+ dq +:+ dq +:+ " so that it can be recognized as a cell in csv.";
    "                        Don't Quote the whole response, only the answers to the questions. And the questions which have comma in them should be quoted.";
    "                        Answer these questions from the given text content.";
    "                        No other text needs to be generated just the answers to these questions.";
    "                        If the answer is not present in the text, then say " +:+ dq +:+ "Not Available" +:+ dq +:+ ".";
    "                        The answers should be human like and shouldn't explicitly say anything about the availability of information in the text.";
    EmptyString;
    "                " ].

(** The f-string: the scraped text stands on the third line. *)
Definition prompt_of (text : string) : string :=
  join nl prompt_lines_before_text +:+ text +:+ nl +:+
  join nl prompt_lines_after_text.

(** The body of the [try] block. *)
Definition ask (prompt : string) : M E string :=
  model <- random_choice MODELS ;;
  response <- call (generate_content E model prompt) ;;
  answer <- lift (reply_text response) ;;
  ret (strip answer).

Definition extract_details (text : string) : M E string :=
  let prompt := prompt_of text in
  try_except
    (ask prompt)
    is_RequestException
    (fun error =>
       print ("Error extracting details due to a request issue: " +:+ str error) ;;;
       ret EmptyString).

(** *** main *)

(** What one turn of the loop does once the site's text is at hand. *)
Definition record_site (results : list Pd.dict) (url combined_text : string)
  : M E (list Pd.dict) :=
  structured_data <- extract_details combined_text ;;
  let results := results ++ [ [("URL", url); ("Extracted Details", structured_data)] ] in
  call (fun w => (Return tt, sleep E 5 w)) ;;;
  ret results.

(** One turn of the loop of [main]. *)
Definition process_site (results : list Pd.dict) (url : string)
  : M E (list Pd.dict) :=
  print ("Processing: " +:+ url) ;;;
  relevant_pages <- get_relevant_links url ;;
  page_texts <- generate scrape_text relevant_pages ;;
  let combined_text := join " " page_texts in
  record_site results url combined_text.

Definition OUTPUT_FILE : string := "extracted_company_details_1.csv".

(** [df.to_csv(path, index=False)] *)
Definition to_csv (df : Pd.DataFrame) (path : string) : M E unit :=
  call (open_write E path) ;;;
  write_file path (Pd.to_csv_rows df).

Definition main_over (urls : list string) : M E unit :=
  results <- for_each urls process_site [] ;;
  let df := Pd.DataFrame_of results in
  to_csv df OUTPUT_FILE ;;;
  print "Data saved to extracted_company_details.csv".

Definition main : M E unit := main_over URLS.

End Script.


(** ** Notions the statements are written with *)

Module Spec.

(** The text nodes below [n], each with the names of the tags it lies inside
    (innermost first, [n] itself not counted), in document order. *)
Fixpoint located_texts (inside : list string) (n : Bs4.node)
  : list (list string * string) :=
  match n with
  | Bs4.Tag _ _ _ contents =>
      flat_map (fun c => match c with
                         | Bs4.NavigableString _ s => [(inside, s)]
                         | Bs4.OtherString _ _ => []
                         | Bs4.Tag _ name _ _ => located_texts (name :: inside) c
                         end)
               contents
  | _ => []
  end.

(** A text node as [stripped_strings] yields it, if it yields it. *)
Definition stripped (s : string) : list string :=
  let s' := PyStr.strip s in
  if (PyStr.len s' =? 0)%nat then [] else [s'].

(** A located text node is kept, stripped, when none of the tags it lies
    inside is named in [removed]. *)
Definition outside (removed : list string) (located : list string * string)
  : list string :=
  if existsb (fun name => bool_decide (name ∈ removed)) located.1
  then [] else stripped located.2.

(** The stripped text of the nodes that lie inside no tag named in
    [removed]. *)
Definition text_outside (removed : list string) (root : Bs4.node) : list string :=
  flat_map (outside removed) (located_texts [] root).

(** [needle] occurs in [hay] when letter case is ignored: it does once both
    are lower-cased. *)
Definition contains_ignoring_case (db : PyStr.Ucd) (needle hay : string) : bool :=
  PyStr.contains (PyStr.lower db needle) (PyStr.lower db hay).

(** No character of [s] is one of [A] to [Z]. *)
Definition no_ascii_capital (s : string) : bool :=
  forallb (fun c => negb (PyStr.is_ascii_capital c)) (Str.chars s).

(** The number of times [x] stands in [l]. *)
Definition occurrences (x : string) (l : list string) : nat :=
  length (filter (fun y => y = x) l).

(** The tree left under [root] when every object whose identity is in [ids]
    is taken out. *)
Fixpoint remove_all (ids : list nat) (root : Bs4.node) : Bs4.node :=
  match root with
  | Bs4.Tag j name attrs contents =>
      Bs4.Tag j name attrs
        (flat_map (fun c => if bool_decide (Bs4.ident c ∈ ids) then []
                            else [remove_all ids c])
                  contents)
  | _ => root
  end.

(** The document as [scrape_text] reads it: the tags to drop are searched
    first, then taken out one after the other. *)
Definition cleaned (root : Bs4.node) : Bs4.node :=
  fold_left (fun root tag => Bs4.extract tag root)
            (Bs4.find_all REMOVED_TAGS root) root.

(** [d] is a tag named in [names]. *)
Definition named_in (names : list string) (d : Bs4.node) : bool :=
  match d with
  | Bs4.Tag _ name _ _ => bool_decide (name ∈ names)
  | _ => false
  end.

(** What [stripped_strings] yields for one object. *)
Definition yield (d : Bs4.node) : list string :=
  match d with
  | Bs4.NavigableString _ s => stripped s
  | _ => []
  end.

(** An anchor's href passes the keyword test of [get_relevant_links]. *)
Definition relevant (href : string) : bool :=
  existsb (fun keyword => PyStr.contains keyword href) RELEVANT_LINKS.

(** The hrefs of the anchors of a page, as written, in document order. *)
Definition hrefs (root : Bs4.node) : list string :=
  omap (fun anchor => Bs4.get anchor "href") (Bs4.find_all_with "a" "href" root).

(** The lower-cased hrefs that pass the keyword test, in document order:
    what the loop of [get_relevant_links] hands to [urljoin]. *)
Definition relevant_hrefs (db : PyStr.Ucd) (root : Bs4.node) : list string :=
  filter (fun href => relevant href = true) (PyStr.lower db <$> hrefs root).

(** The record [main] appends for a site, and the CSV row it becomes. *)
Definition record_of (url details : string) : Pd.dict :=
  [ ("URL", url); ("Extracted Details", details) ].

Definition row_of (url details : string) : list string := [ url; details ].

(** [n] spaces. *)
Fixpoint spaces (n : nat) : string :=
  match n with
  | O => EmptyString
  | S n' => String 32 (spaces n')
  end.

Section Worlds.
Context {E : Env}.

(** The GET of [url] ends in an error of requests: the call raises one, or
    the status is one [raise_for_status] raises for. *)
Definition unreachable (url : string) (w : World E) : Prop :=
  match requests_get E url 10 w with
  | (Raise e, _) => is_RequestException e = true
  | (Return r, _) => (400 <= status_code r < 600)%Z
  end.

(** Each of [pages] is out of reach when its turn comes, the world moving
    on with every GET. *)
Fixpoint all_unreachable (pages : list string) (w : World E) : Prop :=
  match pages with
  | [] => True
  | page :: pages' =>
      unreachable page w /\
      all_unreachable pages' (snd (requests_get E page 10 w))
  end.

(** [urljoin] resolves each relevant href of the page against [base_url],
    to [urls] in this order. *)
Definition resolves (base_url : string) (root : Bs4.node) (urls : list string)
  : Prop :=
  Forall2 (fun href url => urljoin E base_url href = Return url)
          (relevant_hrefs (ucd E) root) urls.

(** [st] once the world has moved to [w] and [lines] were printed. *)
Definition after (st : state E) (w : World E) (lines : list string) : state E :=
  mkState w (stdout st ++ lines) (files st).

End Worlds.

Arguments resolves E base_url root urls : clear implicits.

(** The world fails softly: the parser accepts every markup, [urljoin]
    resolves every reference, [random.choice] draws inside the sequence, the
    output file can be opened, and whatever the network, the model service or
    its reply raises derives from [RequestException]. *)
Definition fail_soft (E : Env) : Prop :=
  (forall url t w e w',
      requests_get E url t w = (Raise e, w') -> is_RequestException e = true) /\
  (forall markup, exists root, BeautifulSoup E markup = Return root) /\
  (forall base href, exists url, urljoin E base href = Return url) /\
  (forall n w, (0 < n)%nat -> (fst (randbelow E n w) < n)%nat) /\
  (forall model prompt w e w',
      generate_content E model prompt w = (Raise e, w') ->
      is_RequestException e = true) /\
  (forall model prompt w r w' e,
      generate_content E model prompt w = (Return r, w') ->
      reply_text r = Raise e -> is_RequestException e = true) /\
  (forall path w, exists w', open_write E path w = (Return tt, w')).

End Spec.


(** ** A few rows of the character database *)

Module Tables.

(** Rows of Unicode 14, the identity elsewhere: the capital I with a dot,
    the capital alpha, the capital sigma, the Kelvin sign; the double-struck
    capital C has no lower-case mapping. *)
Definition tolower_full (c : N) : list N :=
  if (c =? 304)%N then [105; 775]%N
  else if (c =? 913)%N then [945]%N
  else if (c =? 931)%N then [963]%N
  else if (c =? 8490)%N then [107]%N
  else [c].

Definition cased (c : N) : bool :=
  bool_decide (c ∈ [304; 913; 931; 945; 962; 963; 8450; 8490]%N).

(** The soft hyphen and the combining dot above. *)
Definition case_ignorable (c : N) : bool := bool_decide (c ∈ [173; 775]%N).

Definition uppercase (c : N) : bool :=
  bool_decide (c ∈ [304; 913; 931; 8450; 8490]%N).

Definition ucd : PyStr.Ucd :=
  PyStr.mkUcd tolower_full cased case_ignorable uppercase
    ltac:(intros c c' Hc; unfold tolower_full, PyStr.is_ascii_capital;
          repeat case_match;
          intros Hin; repeat (apply elem_of_cons in Hin as [->|Hin]; [reflexivity|]);
          try (apply elem_of_nil in Hin; contradiction);
          apply elem_of_cons in Hin as [->|Hin]; [|by apply elem_of_nil in Hin];
          apply andb_false_iff; right; apply N.leb_gt; lia).

End Tables.

(** ** A small world to run the script in *)

Module Demo.

Import Bs4.

Definition HOME_MARKUP : string :=
  "<a href=/about>About</a><a href=/About>About us</a><a href=/Investors>Investors</a>".

Definition ABOUT_MARKUP : string :=
  "<nav>Menu</nav><p> We make things. </p><script>track()</script>".

Definition DEAD_MARKUP : string :=
  "<a href=/about>About</a><a href=/contact>Contact</a>".

Definition home_root : node :=
  Tag 0 "[document]" ∅
    [ Tag 1 "a" {[ "href" := "/about" ]} [ NavigableString 2 "About" ];
      Tag 3 "a" {[ "href" := "/About" ]} [ NavigableString 4 "About us" ];
      Tag 5 "a" {[ "href" := "/Investors" ]} [ NavigableString 6 "Investors" ] ].

Definition about_root : node :=
  Tag 0 "[document]" ∅
    [ Tag 1 "nav" ∅ [ NavigableString 2 "Menu" ];
      Tag 3 "p" ∅ [ NavigableString 4 " We make things. " ];
      Tag 5 "script" ∅ [ OtherString 6 "track()" ] ].

Definition dead_root : node :=
  Tag 0 "[document]" ∅
    [ Tag 1 "a" {[ "href" := "/about" ]} [ NavigableString 2 "About" ];
      Tag 3 "a" {[ "href" := "/contact" ]} [ NavigableString 4 "Contact" ] ].

Definition empty_root : node := Tag 0 "[document]" ∅ [].

(** The web: two sites; on the second every inner page is out of reach. *)
Definition get (url : string) : outcome Response :=
  if Str.eqb url "https://example.com"
  then Return (mkResponse 200 "OK" url HOME_MARKUP)
  else if Str.eqb url "https://example.com/about"
  then Return (mkResponse 200 "OK" url ABOUT_MARKUP)
  else if Str.eqb url "https://dead.example"
  then Return (mkResponse 200 "OK" url DEAD_MARKUP)
  else if Str.eqb url "https://dead.example/about"
  then Return (mkResponse 404 "Not Found" url EmptyString)
  else Raise (Exception ConnectionError "connection refused").

Definition soup (markup : string) : outcome node :=
  if Str.eqb markup HOME_MARKUP then Return home_root
  else if Str.eqb markup ABOUT_MARKUP then Return about_root
  else if Str.eqb markup DEAD_MARKUP then Return dead_root
  else Return empty_root.

(** The model service answers every prompt alike; the world keeps the
    prompts it was sent. *)
Definition answer : outcome GenerateContentResponse :=
  Return (mkReply (Return ("  Not Available" +:+ PyStr.nl))).

(** A world around a given model service; it keeps the prompts the service
    was sent. *)
Definition env_with (service : outcome GenerateContentResponse) : Env :=
  mkEnv (list string)
        (fun url _ w => (get url, w))
        soup
        (fun base href => Return (base +:+ href))
        (fun items => elements (list_to_set items : gset string))
        (fun _ w => (0, w))
        (fun _ prompt w => (service, w ++ [prompt]))
        (fun _ w => w)
        (fun _ w => (Return tt, w))
        Tables.ucd.

Definition env : Env := env_with answer.

Definition start : state env := mkState (E := env) [] [] ∅.

(** What [get_relevant_links] finds on the second site, and the state it
    leaves when called from [start] by [process_site]. *)
Definition dead_pages : list string :=
  [ "https://dead.example/about"; "https://dead.example/contact" ].

Definition dead_discovered : state env :=
  mkState (E := env) []
          [ "Processing: https://dead.example";
            "Found relevant link: https://dead.example/about";
            "Found relevant link: https://dead.example/contact" ]
          ∅.

(** The same world with a model service that is out of reach. *)
Definition env_offline : Env :=
  env_with (Raise (Exception Timeout "timed out")).

Definition start_offline : state env_offline :=
  mkState (E := env_offline) [] [] ∅.

(** The same world with a model client that fails on its own account. *)
Definition env_broken : Env :=
  env_with (Raise (Exception (OtherError "ResourceExhausted") "quota")).

Definition start_broken : state env_broken :=
  mkState (E := env_broken) [] [] ∅.

End Demo.


(** ** Further notions *)

Module Frame.

Section Frame.
Context {E : Env}.

(** A computation that leaves the files as they are, however it ends. *)
Definition keeps_files {A} (c : M E A) : Prop :=
  forall st, files (snd (c st)) = files st.

End Frame.

End Frame.

Module Page.

(** The text [scrape_text] has at hand before it cuts it: the stripped
    strings of the cleaned document, joined by single spaces. *)
Definition joined_text (root : Bs4.node) : string :=
  PyStr.join " " (Bs4.stripped_strings (Spec.cleaned root)).

End Page.

Module Worlds.

(** The model service is down: every call to it raises an error of
    requests. *)
Definition service_down (E : Env) : Prop :=
  forall model prompt w,
    exists e w',
      generate_content E model prompt w = (Raise e, w') /\
      is_RequestException e = true.

End Worlds.

Module Keywords.

(** The keywords of [RELEVANT_LINKS] written without a capital letter. *)
Definition LOWER_CASE : list string :=
  [ "home"; "about"; "contact"; "services"; "products" ].

(** The name the last message of [main] prints. *)
Definition REPORTED_FILE : string := "extracted_company_details.csv".

End Keywords.

(** ** A world where more goes wrong *)

Module Faulty.

Definition REJECTED_MARKUP : string := "<![".

(** One site answers, one answers with markup the parser rejects, the GET
    of one URL fails outside requests' own errors, and any other host is out
    of reach. *)
Definition get (url : string) : outcome Response :=
  if Str.eqb url "https://example.com"
  then Return (mkResponse 200 "OK" url Demo.HOME_MARKUP)
  else if Str.eqb url "https://broken.example"
  then Return (mkResponse 200 "OK" url REJECTED_MARKUP)
  else if Str.eqb url "https://.example"
  then Raise (Exception (OtherError "UnicodeError") "label empty or too long")
  else Raise (Exception ConnectionError "connection refused").

Definition soup (markup : string) : outcome Bs4.node :=
  if Str.eqb markup REJECTED_MARKUP
  then Raise (Exception (OtherError "ParserRejectedMarkup") "rejected")
  else Demo.soup markup.

(** The output file cannot be opened. *)
Definition env : Env :=
  mkEnv (list string)
        (fun url _ w => (get url, w))
        soup
        (fun base href => Return (base +:+ href))
        (fun items => elements (list_to_set items : gset string))
        (fun _ w => (0, w))
        (fun _ prompt w => (Demo.answer, w ++ [prompt]))
        (fun _ w => w)
        (fun path w => (Raise (Exception (OtherError "PermissionError") path), w))
        Tables.ucd.

(** Files left by an earlier run. *)
Definition old_files : gmap string csv :=
  {[ Keywords.REPORTED_FILE := [ [ "stale" ] ];
     OUTPUT_FILE := [ [ "stale" ] ] ]}.

Definition start : state env := mkState (E := env) [] [] old_files.

(** The sample world of [Demo], started with those files in place. *)
Definition demo_start : state Demo.env := mkState (E := Demo.env) [] [] old_files.

End Faulty.

(** ** The statements' own words *)

(** What the statements say of letter case, white space, joining and
    cutting is written here a second time, on lists of code points and with
    the constants spelled out, apart from the functions of [PyStr]. *)

Module Plain.








(** The white space of Unicode. *)
Definition WHITE_SPACE : list N :=
  [ 9; 10; 11; 12; 13; 28; 29; 30; 31; 32; 133; 160; 5760;
    8192; 8193; 8194; 8195; 8196; 8197; 8198; 8199; 8200; 8201; 8202;
    8232; 8233; 8239; 8287; 12288 ]%N.

Fixpoint skip_white (cs : list N) : list N :=
  match cs with
  | [] => []
  | c :: cs' => if bool_decide (c ∈ WHITE_SPACE) then skip_white cs' else cs
  end.

(** [s] without the white space at its two ends. *)
Definition trimmed (s : string) : string :=
  Str.of_chars (reverse (skip_white (reverse (skip_white (Str.chars s))))).

(** [parts] with one space between two of them. *)
Definition spaced (parts : list string) : string :=
  match parts with
  | [] => EmptyString
  | part :: rest =>
      Str.of_chars (Str.chars part ++ flat_map (fun p => 32%N :: Str.chars p) rest)
  end.

(** The first [n] characters of [s], all of [s] when it has fewer. *)
Definition first_chars (n : nat) (s : string) : string :=
  Str.of_chars (take n (Str.chars s)).

(** The text nodes of the page that lie inside no element named in [names],
    in document order, each trimmed, those left empty dropped. *)
Definition kept_text (names : list string) (root : Bs4.node) : list string :=
  flat_map (fun located : list string * string =>
              if existsb (fun name => bool_decide (name ∈ names)) located.1
              then []
              else match trimmed located.2 with
                   | EmptyString => []
                   | text => [text]
                   end)
           (Spec.located_texts [] root).

(** The tree left when the tags named in [names] are searched, then taken
    out one after the other. *)
Definition without (names : list string) (root : Bs4.node) : Bs4.node :=
  fold_left (fun root tag => Bs4.extract tag root) (Bs4.find_all names root) root.


End Plain.

(** ** A page with nested elements, and a page with letters of other scripts *)

Module Press.

Definition PRESS_MARKUP : string :=
  "<header><nav>Menu</nav>Acme</header><p> We make things. </p>"
  +:+ "<div><script>track()</script><p>Since 1999.<i>  </i><style>p{}</style></p></div>"
  +:+ "<footer>Legal</footer>&nbsp;&emsp;".

(** The white space of the last text node is a no-break space and an em
    space. *)
Definition press_root : Bs4.node :=
  Bs4.Tag 0 "[document]" ∅
    [ Bs4.Tag 1 "header" ∅
        [ Bs4.Tag 2 "nav" ∅ [ Bs4.NavigableString 3 "Menu" ];
          Bs4.NavigableString 4 "Acme" ];
      Bs4.Tag 5 "p" ∅ [ Bs4.NavigableString 6 " We make things. " ];
      Bs4.Tag 7 "div" ∅
        [ Bs4.Tag 8 "script" ∅ [ Bs4.OtherString 9 "track()" ];
          Bs4.Tag 10 "p" ∅
            [ Bs4.NavigableString 11 "Since 1999.";
              Bs4.Tag 12 "i" ∅ [ Bs4.NavigableString 13 "  " ];
              Bs4.Tag 14 "style" ∅ [ Bs4.OtherString 15 "p{}" ] ] ];
      Bs4.Tag 16 "footer" ∅ [ Bs4.NavigableString 17 "Legal" ];
      Bs4.NavigableString 18 (String 160 (String 8195 EmptyString)) ].

(** The same tree once the five kinds of element are out. *)
Definition press_cleaned : Bs4.node :=
  Bs4.Tag 0 "[document]" ∅
    [ Bs4.Tag 5 "p" ∅ [ Bs4.NavigableString 6 " We make things. " ];
      Bs4.Tag 7 "div" ∅
        [ Bs4.Tag 10 "p" ∅
            [ Bs4.NavigableString 11 "Since 1999.";
              Bs4.Tag 12 "i" ∅ [ Bs4.NavigableString 13 "  " ] ] ];
      Bs4.NavigableString 18 (String 160 (String 8195 EmptyString)) ].

(** Hrefs with the double-struck capital C, and with a capital and a small
    alpha and sigma. *)
Definition HREF_C : string := "/about" +:+ String 8450 EmptyString.
Definition HREF_CAPITALS : string := "/about-" +:+ String 913 (String 931 EmptyString).
Definition HREF_SMALL : string := "/about-" +:+ String 945 (String 963 EmptyString).

Definition INTL_MARKUP : string :=
  "<a href=" +:+ HREF_C +:+ ">C</a><a href=" +:+ HREF_CAPITALS
  +:+ ">AS</a><a href=" +:+ HREF_SMALL +:+ ">as</a>".

Definition intl_root : Bs4.node :=
  Bs4.Tag 0 "[document]" ∅
    [ Bs4.Tag 1 "a" {[ "href" := HREF_C ]} [ Bs4.NavigableString 2 "C" ];
      Bs4.Tag 3 "a" {[ "href" := HREF_CAPITALS ]} [ Bs4.NavigableString 4 "AS" ];
      Bs4.Tag 5 "a" {[ "href" := HREF_SMALL ]} [ Bs4.NavigableString 6 "as" ] ].

Definition get (url : string) : outcome Response :=
  if Str.eqb url "https://press.example"
  then Return (mkResponse 200 "OK" url PRESS_MARKUP)
  else if Str.eqb url "https://intl.example"
  then Return (mkResponse 200 "OK" url INTL_MARKUP)
  else Raise (Exception ConnectionError "connection refused").

Definition soup (markup : string) : outcome Bs4.node :=
  if Str.eqb markup PRESS_MARKUP then Return press_root
  else if Str.eqb markup INTL_MARKUP then Return intl_root
  else Return Demo.empty_root.

Definition env : Env :=
  mkEnv (list string)
        (fun url _ w => (get url, w))
        soup
        (fun base href => Return (base +:+ href))
        (fun items => elements (list_to_set items : gset string))
        (fun _ w => (0, w))
        (fun _ prompt w => (Demo.answer, w ++ [prompt]))
        (fun _ w => w)
        (fun _ w => (Return tt, w))
        Tables.ucd.

Definition start : state env := mkState (E := env) [] [] ∅.

End Press.

(** * Properties *)

(** ** Running computations *)

Section Run.
Context {E : Env}.

Lemma bind_Return {A B} (c : M E A) (k : A -> M E B) st a st' :
  c st = (Return a, st') -> bind c k st = k a st'.
Proof. intros H. unfold bind. now rewrite H. Qed.

Lemma bind_Raise {A B} (c : M E A) (k : A -> M E B) st e st' :
  c st = (Raise e, st') -> bind c k st = (Raise e, st').
Proof. intros H. unfold bind. now rewrite H. Qed.

Lemma try_except_Return {A} (body : M E A) catches handler st a st' :
  body st = (Return a, st') -> try_except body catches handler st = (Return a, st').
Proof. intros H. unfold try_except. now rewrite H. Qed.

Lemma try_except_caught {A} (body : M E A) catches handler st e st' :
  body st = (Raise e, st') -> catches e = true ->
  try_except body catches handler st = handler e st'.
Proof. intros H Hc. unfold try_except. now rewrite H, Hc. Qed.

Lemma try_except_escapes {A} (body : M E A) catches handler st e st' :
  body st = (Raise e, st') -> catches e = false ->
  try_except body catches handler st = (Raise e, st').
Proof. intros H Hc. unfold try_except. now rewrite H, Hc. Qed.

(** [fetch] ends in one of three ways, told by the world alone. *)
Lemma fetch_unreachable url (st : state E) :
  Spec.unreachable url (world st) ->
  exists e, is_RequestException e = true /\
            fetch url st = (Raise e, Spec.after st (snd (requests_get E url 10 (world st))) []).
Proof.
  unfold Spec.unreachable, fetch, Spec.after, bind, call, raise_for_status.
  destruct (requests_get E url 10 (world st)) as [[r|e] w]; simpl; intros H.
  - destruct H as [H1 H2].
    destruct (400 <=? status_code r)%Z eqn:H400; [|lia].
    destruct (status_code r <? 500)%Z eqn:H500; simpl.
    + eexists; split; [|unfold raise; rewrite app_nil_r; reflexivity]. reflexivity.
    + destruct (500 <=? status_code r)%Z eqn:H5; [|lia].
      destruct (status_code r <? 600)%Z eqn:H6; [|lia]. simpl.
      eexists; split; [|unfold raise; rewrite app_nil_r; reflexivity]. reflexivity.
  - exists e. split; [done|]. now rewrite app_nil_r.
Qed.

(** A page out of reach scrapes to the empty string, with one line printed. *)
Lemma scrape_text_out_of_reach (url : string) (st : state E) :
  Spec.unreachable url (world st) ->
  exists msg,
    scrape_text url st =
      (Return EmptyString,
       Spec.after st (snd (requests_get E url 10 (world st)))
                  [ "Error scraping " +:+ url +:+ ": " +:+ msg ]).
Proof.
  intros H. destruct (fetch_unreachable _ _ H) as (e & He & Hf).
  exists (str e). unfold scrape_text.
  erewrite bind_Return.
  2:{ erewrite try_except_caught; [reflexivity | | exact He].
      erewrite bind_Raise; [reflexivity | exact Hf]. }
  unfold Spec.after. simpl. now rewrite app_nil_r.
Qed.

End Run.

(** ** Pages out of reach *)

Section Unreachable.
Context {E : Env}.

(** C6. When the GET of the base URL ends in an error of requests (the call
    raises one, or the status is a 4xx or 5xx one), [get_relevant_links]
    returns the empty list, having printed one line that reports the error;
    nothing is raised. *)
Theorem get_relevant_links_unreachable (base_url : string) (st : state E) :
  Spec.unreachable base_url (world st) ->
  exists msg,
    get_relevant_links base_url st =
      (Return [],
       Spec.after st (snd (requests_get E base_url 10 (world st)))
                  [ "Error fetching " +:+ base_url +:+ ": " +:+ msg ]).
Proof.
  intros H. destruct (fetch_unreachable _ _ H) as (e & He & Hf).
  exists (str e). unfold get_relevant_links.
  erewrite bind_Return.
  2:{ erewrite try_except_caught; [reflexivity | | exact He].
      erewrite bind_Raise; [reflexivity | exact Hf]. }
  unfold Spec.after. simpl. now rewrite app_nil_r.
Qed.

(** C7. Under the same condition [scrape_text] returns the empty string,
    having printed one line that reports the error; nothing is raised. *)
Theorem scrape_text_unreachable (url : string) (st : state E) :
  Spec.unreachable url (world st) ->
  exists msg,
    scrape_text url st =
      (Return EmptyString,
       Spec.after st (snd (requests_get E url 10 (world st)))
                  [ "Error scraping " +:+ url +:+ ": " +:+ msg ]).
Proof. apply scrape_text_out_of_reach. Qed.

End Unreachable.

Lemma get_relevant_links_unreachable_witness :
  Spec.unreachable "https://dead.example/about" (world Demo.start) /\
  exists msg,
    get_relevant_links "https://dead.example/about" Demo.start =
      (Return [],
       Spec.after Demo.start []
                  [ "Error fetching https://dead.example/about: " +:+ msg ]).
Proof.
  split.
  - unfold Spec.unreachable; simpl; lia.
  - apply (get_relevant_links_unreachable "https://dead.example/about" Demo.start).
    unfold Spec.unreachable; simpl; lia.
Defined.

Lemma scrape_text_unreachable_witness :
  Spec.unreachable "https://dead.example/contact" (world Demo.start) /\
  exists msg,
    scrape_text "https://dead.example/contact" Demo.start =
      (Return EmptyString,
       Spec.after Demo.start []
                  [ "Error scraping https://dead.example/contact: " +:+ msg ]).
Proof.
  split.
  - reflexivity.
  - apply (scrape_text_unreachable "https://dead.example/contact" Demo.start).
    reflexivity.
Defined.

(** ** The model call *)

Section Extraction.
Context {E : Env}.

(** C8. [extract_details] returns the stripped text of the model's reply when
    the call goes through; when the call raises an error of requests it prints
    a line and returns the empty string; any other error raised in the call
    reaches the caller. *)
Theorem extract_details_outcomes (text : string) (st : state E) :
  (forall i w1 model response w2 answer,
      randbelow E (length MODELS) (world st) = (i, w1) ->
      MODELS !! i = Some model ->
      generate_content E model (prompt_of text) w1 = (Return response, w2) ->
      reply_text response = Return answer ->
      extract_details text st = (Return (PyStr.strip answer), Spec.after st w2 []))
  /\ (forall e st',
         ask (prompt_of text) st = (Raise e, st') ->
         is_RequestException e = true ->
         extract_details text st =
           (Return EmptyString,
            Spec.after st' (world st')
              [ "Error extracting details due to a request issue: " +:+ str e ]))
  /\ (forall e st',
         ask (prompt_of text) st = (Raise e, st') ->
         is_RequestException e = false ->
         extract_details text st = (Raise e, st')).
Proof.
  split; [|split].
  - intros i w1 model response w2 answer Hi Hm Hg Ha.
    unfold extract_details. apply try_except_Return.
    unfold ask, random_choice, bind, call, ret, Spec.after.
    rewrite Hi, Hm. simpl. rewrite Hg. simpl. rewrite Ha.
    now rewrite app_nil_r.
  - intros e st' Hask He. unfold extract_details.
    erewrite try_except_caught; [reflexivity | exact Hask | exact He].
  - intros e st' Hask He. unfold extract_details.
    now apply try_except_escapes.
Qed.

End Extraction.

Lemma extract_details_outcomes_witness :
  extract_details "We make things." Demo.start =
    (Return "Not Available",
     Spec.after Demo.start [prompt_of "We make things."] [])
  /\ extract_details "We make things." Demo.start_offline =
       (Return EmptyString,
        Spec.after Demo.start_offline [prompt_of "We make things."]
          [ "Error extracting details due to a request issue: timed out" ])
  /\ extract_details "We make things." Demo.start_broken =
       (Raise (Exception (OtherError "ResourceExhausted") "quota"),
        Spec.after Demo.start_broken [prompt_of "We make things."] []).
Proof.
  split; [|split].
  - exact (proj1 (extract_details_outcomes "We make things." Demo.start)
                 0 [] "gemini-2.0-pro-exp"
                 (mkReply (Return ("  Not Available" +:+ PyStr.nl)))
                 [prompt_of "We make things."] ("  Not Available" +:+ PyStr.nl)
                 eq_refl eq_refl eq_refl eq_refl).
  - exact (proj1 (proj2 (extract_details_outcomes "We make things." Demo.start_offline))
                 (Exception Timeout "timed out")
                 (Spec.after Demo.start_offline [prompt_of "We make things."] [])
                 eq_refl eq_refl).
  - exact (proj2 (proj2 (extract_details_outcomes "We make things." Demo.start_broken))
                 (Exception (OtherError "ResourceExhausted") "quota")
                 (Spec.after Demo.start_broken [prompt_of "We make things."] [])
                 eq_refl eq_refl).
Defined.

(** ** Strings *)

Lemma slice_to_len (n : nat) (s : string) : PyStr.len (PyStr.slice_to n s) <= n.
Proof.
  unfold PyStr.len, PyStr.slice_to.
  revert s; induction n as [|n IH]; intros [|c s]; simpl; try lia.
  specialize (IH s). lia.
Qed.

Lemma chars_app (a b : string) : Str.chars (a +:+ b) = Str.chars a ++ Str.chars b.
Proof. induction a as [|c a IH]; simpl; [done | now rewrite IH]. Qed.

Lemma chars_of_chars (cs : list N) : Str.chars (Str.of_chars cs) = cs.
Proof. induction cs as [|c cs IH]; simpl; [done | now rewrite IH]. Qed.

(** *** The library's strings and the statements' own words *)

Lemma of_chars_chars (s : string) : Str.of_chars (Str.chars s) = s.
Proof. induction s as [|c s IH]; simpl; [done | now rewrite IH]. Qed.

(** Joining by single spaces puts one space between two parts. *)
Lemma join_spaced (parts : list string) :
  PyStr.join " " parts = Plain.spaced parts.
Proof.
  unfold PyStr.join, Plain.spaced.
  destruct parts as [|part rest]; [done|].
  rewrite <- (of_chars_chars (Str.concat " " (part :: rest))). f_equal.
  revert part. induction rest as [|p rest IH]; intros part.
  - simpl. now rewrite app_nil_r.
  - change (Str.concat " " (part :: p :: rest))
      with (part +:+ " " +:+ Str.concat " " (p :: rest)).
    rewrite !chars_app, IH. reflexivity.
Qed.

(** [s[:n]] is the first [n] characters of [s]. *)
Lemma slice_to_first_chars (n : nat) (s : string) :
  PyStr.slice_to n s = Plain.first_chars n s.
Proof.
  unfold PyStr.slice_to, Plain.first_chars.
  revert s. induction n as [|n IH]; intros [|c s]; simpl; try done.
  now rewrite IH.
Qed.

(** [isspace] holds of the white space of Unicode, and of nothing else. *)
Lemma isspace_white (c : N) :
  PyStr.isspace c = bool_decide (c ∈ Plain.WHITE_SPACE).
Proof.
  assert (H : PyStr.isspace c = true <-> c ∈ Plain.WHITE_SPACE).
  { unfold PyStr.isspace, Plain.WHITE_SPACE.
    rewrite !orb_true_iff, !andb_true_iff, !N.leb_le, !N.eqb_eq.
    rewrite !elem_of_cons, elem_of_nil. lia. }
  destruct (PyStr.isspace c) eqn:Hc; symmetry.
  - apply bool_decide_eq_true_2, H. reflexivity.
  - apply bool_decide_eq_false_2. intros Hin. apply H in Hin. discriminate.
Qed.

Lemma lstrip_skip_white (s : string) :
  Str.chars (PyStr.lstrip s) = Plain.skip_white (Str.chars s).
Proof.
  induction s as [|c s IH]; [done|].
  cbn [PyStr.lstrip Str.chars Plain.skip_white].
  rewrite isspace_white. now destruct (bool_decide (c ∈ Plain.WHITE_SPACE)).
Qed.

Lemma skip_white_snoc (cs : list N) (c : N) :
  Plain.skip_white (cs ++ [c])
  = match Plain.skip_white cs with
    | [] => if bool_decide (c ∈ Plain.WHITE_SPACE) then [] else [c]
    | rest => rest ++ [c]
    end.
Proof.
  induction cs as [|a cs IH]; [done|].
  cbn [app Plain.skip_white].
  destruct (bool_decide (a ∈ Plain.WHITE_SPACE)); [exact IH | reflexivity].
Qed.

Lemma rstrip_skip_white (s : string) :
  Str.chars (PyStr.rstrip s)
  = reverse (Plain.skip_white (reverse (Str.chars s))).
Proof.
  induction s as [|c s IH]; [done|].
  cbn [PyStr.rstrip Str.chars].
  rewrite reverse_cons, skip_white_snoc, <- isspace_white.
  destruct (Plain.skip_white (reverse (Str.chars s))) as [|a rest] eqn:Hs.
  - destruct (PyStr.rstrip s); [|discriminate]. now destruct (PyStr.isspace c).
  - rewrite reverse_app. cbn [reverse app].
    change (reverse [c]) with [c]. cbn [app]. rewrite <- IH.
    destruct (PyStr.rstrip s) eqn:Hr; [|reflexivity].
    exfalso. simpl in IH. symmetry in IH.
    apply (f_equal length) in IH. rewrite length_reverse in IH. discriminate.
Qed.

(** [strip] takes the white space off the two ends. *)
Lemma strip_trimmed (s : string) : PyStr.strip s = Plain.trimmed s.
Proof.
  unfold PyStr.strip, Plain.trimmed.
  rewrite <- (of_chars_chars (PyStr.rstrip _)). f_equal.
  now rewrite rstrip_skip_white, lstrip_skip_white.
Qed.

(** The text outside the named tags, in the statements' own words. *)
Lemma text_outside_kept (names : list string) (root : Bs4.node) :
  Spec.text_outside names root = Plain.kept_text names root.
Proof.
  unfold Spec.text_outside, Plain.kept_text.
  apply flat_map_ext. intros [inside s]. unfold Spec.outside. cbn [fst snd].
  destruct (existsb _ inside); [done|].
  unfold Spec.stripped. rewrite strip_trimmed.
  now destruct (Plain.trimmed s).
Qed.

(** ** Scraping one page *)

Section Scraping.
Context {E : Env}.

(** The ways [scrape_text] can end. *)
Lemma scrape_text_cases (url : string) (st : state E) :
  scrape_text url st =
    match fetch url st with
    | (Return response, st1) =>
        match BeautifulSoup E (text response) with
        | Return root =>
            (Return (PyStr.slice_to 1000
                       (PyStr.join " " (Bs4.stripped_strings (Spec.cleaned root)))),
             st1)
        | Raise e => (Raise e, st1)
        end
    | (Raise e, st1) =>
        if is_RequestException e
        then (Return EmptyString,
              Spec.after st1 (world st1)
                         [ "Error scraping " +:+ url +:+ ": " +:+ str e ])
        else (Raise e, st1)
    end.
Proof.
  unfold scrape_text, bind at 1, try_except, bind at 1.
  destruct (fetch url st) as [[response|e] st1]; simpl.
  - unfold bind, parse, ret, Spec.cleaned.
    destruct (BeautifulSoup E (text response)); reflexivity.
  - destruct (is_RequestException e); reflexivity.
Qed.

(** C4. Whatever string [scrape_text] returns has at most 1000 characters;
    and it does return one whenever the page was fetched and parsed. *)
Theorem scrape_text_length (url : string) (st : state E) :
  (forall s st', scrape_text url st = (Return s, st') -> PyStr.len s <= 1000)
  /\ (forall response st1 root,
         fetch url st = (Return response, st1) ->
         BeautifulSoup E (text response) = Return root ->
         exists s, scrape_text url st = (Return s, st1) /\ PyStr.len s <= 1000).
Proof.
  split.
  - intros s st'. rewrite scrape_text_cases.
    destruct (fetch url st) as [[response|e] st1].
    + destruct (BeautifulSoup E (text response)); [|discriminate].
      intros [= <- _]. apply slice_to_len.
    + destruct (is_RequestException e); [|discriminate].
      intros [= <- _]. simpl. lia.
  - intros response st1 root Hf Hp. rewrite scrape_text_cases, Hf, Hp.
    eexists; split; [reflexivity | apply slice_to_len].
Qed.

End Scraping.

Lemma scrape_text_length_witness :
  PyStr.len "We make things." <= 1000
  /\ exists s, scrape_text "https://example.com/about" Demo.start = (Return s, Demo.start)
               /\ PyStr.len s <= 1000.
Proof.
  split.
  - exact (proj1 (scrape_text_length "https://example.com/about" Demo.start)
                 "We make things." Demo.start eq_refl).
  - exact (proj2 (scrape_text_length "https://example.com/about" Demo.start)
                 (mkResponse 200 "OK" "https://example.com/about" Demo.ABOUT_MARKUP)
                 Demo.start Demo.about_root eq_refl eq_refl).
Defined.

(** ** The document tree *)

Section Tree.
Import Bs4 Spec.

Lemma node_forest_ind (P : node -> Prop) :
  (forall i s, P (NavigableString i s)) ->
  (forall i s, P (OtherString i s)) ->
  (forall i name attrs contents,
      Forall P contents -> P (Tag i name attrs contents)) ->
  forall n, P n.
Proof.
  intros Hs Ho Ht. fix IH 1.
  intros [i s|i s|i name attrs contents]; [apply Hs | apply Ho |].
  apply Ht. induction contents as [|c cs IHcs]; constructor; [apply IH | exact IHcs].
Qed.

Lemma ident_remove i n : ident (remove i n) = ident n.
Proof. now destruct n. Qed.

Lemma remove_all_nil n : remove_all [] n = n.
Proof.
  induction n as [| |i name attrs contents IH] using node_forest_ind; try done.
  simpl. f_equal.
  induction IH as [|c cs Hc _ IHcs]; [done|].
  simpl. now rewrite Hc, IHcs.
Qed.

Lemma remove_all_remove ids i n :
  remove_all ids (remove i n) = remove_all (i :: ids) n.
Proof.
  induction n as [| |j name attrs contents IH] using node_forest_ind; try done.
  simpl. f_equal.
  induction IH as [|c cs Hc _ IHcs]; [done|].
  simpl. rewrite <- IHcs. clear IHcs.
  destruct (Nat.eqb_spec (ident c) i) as [->|Hne]; simpl.
  - rewrite bool_decide_eq_true_2 by left. done.
  - rewrite ident_remove.
    destruct (decide (ident c ∈ ids)) as [Hin|Hin].
    + rewrite !bool_decide_eq_true_2; [done | now right | done].
    + rewrite !bool_decide_eq_false_2; [now rewrite Hc | | done].
      intros [?|?]%elem_of_cons; done.
Qed.

(** Taking objects out one by one leaves what taking them out together
    leaves. *)
Lemma fold_extract tags root :
  fold_left (fun root tag => extract tag root) tags root
  = remove_all (ident <$> tags) root.
Proof.
  revert root; induction tags as [|t tags IH]; intros root; simpl.
  - now rewrite remove_all_nil.
  - rewrite IH. apply remove_all_remove.
Qed.

(** Nothing of what lies inside a dropped tag is kept. *)
Lemma outside_dropped removed n inside :
  existsb (fun name => bool_decide (name ∈ removed)) inside = true ->
  flat_map (outside removed) (located_texts inside n) = [].
Proof.
  revert inside.
  induction n as [| |i name attrs contents IH] using node_forest_ind; try done.
  intros inside Hd. simpl.
  induction IH as [|c cs Hc _ IHcs]; [done|].
  simpl. rewrite flat_map_app, IHcs, app_nil_r.
  destruct c as [j s|j s|j name' attrs' contents']; [| done |].
  - simpl. unfold outside. simpl. now rewrite Hd.
  - apply Hc. simpl. rewrite Hd. apply orb_true_r.
Qed.

(** Where exactly the tags named in [removed] are taken out, what
    [stripped_strings] yields is the text outside them. *)
Lemma yield_remove_all removed ids n inside :
  existsb (fun name => bool_decide (name ∈ removed)) inside = false ->
  (forall d, d ∈ descendants n -> ident d ∈ ids <-> named_in removed d = true) ->
  flat_map yield (descendants (remove_all ids n))
  = flat_map (outside removed) (located_texts inside n).
Proof.
  revert inside.
  induction n as [| |i name attrs contents IH] using node_forest_ind; try done.
  intros inside Hclean Hids. simpl in *.
  induction IH as [|c cs Hc _ IHcs]; [done|].
  simpl. rewrite !flat_map_app.
  rewrite <- IHcs.
  2:{ intros d Hd. apply Hids. simpl. rewrite elem_of_cons, elem_of_app. auto. }
  f_equal. clear IHcs.
  assert (Hc_ids : ident c ∈ ids <-> named_in removed c = true).
  { apply Hids. simpl. left. }
  assert (Hbelow : forall d, d ∈ descendants c ->
                             ident d ∈ ids <-> named_in removed d = true).
  { intros d Hd. apply Hids. simpl. rewrite elem_of_cons, elem_of_app. auto. }
  destruct c as [j s|j s|j name' attrs' contents'].
  - rewrite bool_decide_eq_false_2.
    2:{ intros Hin. apply Hc_ids in Hin. discriminate. }
    simpl. unfold outside. simpl. rewrite Hclean. now rewrite !app_nil_r.
  - rewrite bool_decide_eq_false_2.
    2:{ intros Hin. apply Hc_ids in Hin. discriminate. }
    reflexivity.
  - destruct (named_in removed (Tag j name' attrs' contents')) eqn:Hn.
    + rewrite bool_decide_eq_true_2 by now apply Hc_ids.
      simpl. symmetry. apply (outside_dropped removed (Tag j name' attrs' contents')).
      simpl in *. now rewrite Hn.
    + rewrite bool_decide_eq_false_2.
      2:{ intros Hin. apply Hc_ids in Hin. discriminate. }
      cbn [flat_map app]. rewrite app_nil_r. cbn [yield app].
      apply (Hc (name' :: inside)); [|exact Hbelow].
      simpl in *. now rewrite Hn, Hclean.
Qed.

Lemma fmap_inj_on {A B} (f : A -> B) (l : list A) x y :
  NoDup (f <$> l) -> x ∈ l -> y ∈ l -> f x = f y -> x = y.
Proof.
  induction l as [|a l IH]; intros Hnd Hx Hy Hxy; [by apply elem_of_nil in Hx|].
  rewrite fmap_cons in Hnd. apply NoDup_cons in Hnd as [Ha Hnd].
  apply elem_of_cons in Hx as [->|Hx]; apply elem_of_cons in Hy as [->|Hy]; auto.
  - exfalso. apply Ha. rewrite Hxy. now apply list_elem_of_fmap_2.
  - exfalso. apply Ha. rewrite <- Hxy. now apply list_elem_of_fmap_2.
Qed.

(** In a document of distinct objects, the identities of the tags found by
    [find_all] single out those tags. *)
Lemma find_all_idents names root d :
  NoDup (idents root) -> d ∈ descendants root ->
  ident d ∈ ident <$> find_all names root <-> named_in names d = true.
Proof.
  intros Hnd Hd. unfold find_all. split.
  - intros (t & Heq & Ht)%list_elem_of_fmap.
    apply list_elem_of_filter in Ht as [Hnamed Ht].
    assert (d = t) as -> by (eapply fmap_inj_on; eauto).
    exact Hnamed.
  - intros Hnamed. apply list_elem_of_fmap_2.
    apply list_elem_of_filter. split; [exact Hnamed | exact Hd].
Qed.

(** The loop of [scrape_text] leaves exactly the text outside the dropped
    tags. *)
Lemma stripped_strings_cleaned root :
  NoDup (idents root) ->
  stripped_strings (cleaned root) = text_outside REMOVED_TAGS root.
Proof.
  intros Hnd. unfold cleaned, stripped_strings, text_outside.
  rewrite fold_extract.
  rewrite <- (yield_remove_all REMOVED_TAGS (ident <$> find_all REMOVED_TAGS root) root []).
  - reflexivity.
  - reflexivity.
  - intros d Hd. now apply find_all_idents.
Qed.

End Tree.

(** ** What a scraped page keeps *)

Lemma Demo_fresh_idents service : fresh_idents (Demo.env_with service).
Proof.
  intros markup root. simpl. unfold Demo.soup.
  repeat case_match; intros [= <-]; apply (bool_decide_unpack (NoDup _)); vm_compute; exact I.
Qed.

Example text_outside_about :
  Spec.text_outside REMOVED_TAGS Demo.about_root = [ "We make things." ].
Proof. reflexivity. Qed.

Section Visible.
Context {E : Env}.

(** C5. When the page is fetched and parsed, [scrape_text] returns the first
    1000 characters of this string: the text nodes that lie inside no script,
    style, header, footer or nav element, in document order, each without
    the white space at its ends, the empty ones dropped, with one space
    between two of them.  No text from inside those elements takes part. *)
Theorem scrape_text_visible_text (url : string) (st : state E)
        (response : Response) (st1 : state E) (root : Bs4.node) :
  fresh_idents E ->
  fetch url st = (Return response, st1) ->
  BeautifulSoup E (text response) = Return root ->
  scrape_text url st =
    (Return (Plain.first_chars 1000
               (Plain.spaced
                  (Plain.kept_text [ "script"; "style"; "header"; "footer"; "nav" ]
                                   root))),
     st1).
Proof.
  intros Hfresh Hf Hp.
  rewrite scrape_text_cases, Hf, Hp.
  rewrite stripped_strings_cleaned by (eapply Hfresh, Hp).
  unfold REMOVED_TAGS.
  now rewrite text_outside_kept, join_spaced, slice_to_first_chars.
Qed.

End Visible.

Lemma Press_fresh_idents : fresh_idents Press.env.
Proof.
  intros markup root. simpl. unfold Press.soup.
  repeat case_match; intros [= <-]; apply (bool_decide_unpack (NoDup _)); vm_compute; exact I.
Qed.

Lemma scrape_text_visible_text_witness :
  fresh_idents Press.env
  /\ Plain.kept_text [ "script"; "style"; "header"; "footer"; "nav" ] Press.press_root
     = [ "We make things."; "Since 1999." ]
  /\ scrape_text "https://press.example" Press.start
     = (Return "We make things. Since 1999.", Press.start).
Proof.
  split; [apply Press_fresh_idents|].
  split; [vm_compute; reflexivity|].
  apply (scrape_text_visible_text "https://press.example" Press.start
           (mkResponse 200 "OK" "https://press.example" Press.PRESS_MARKUP)
           Press.start Press.press_root).
  - apply Press_fresh_idents.
  - reflexivity.
  - reflexivity.
Defined.

(** ** Keywords and letter case *)


Lemma ascii_lower_not_capital c :
  PyStr.is_ascii_capital (PyStr.ascii_lower c) = false.
Proof.
  unfold PyStr.ascii_lower, PyStr.is_ascii_capital.
  destruct ((65 <=? c) && (c <=? 90))%N eqn:H; [|exact H].
  apply andb_false_iff. right. apply N.leb_gt.
  apply andb_true_iff in H as [H _]. apply N.leb_le in H. lia.
Qed.

Section Lowering.
Context (db : PyStr.Ucd).

Lemma to_lower_not_capital c c' :
  c' ∈ PyStr.to_lower db c -> PyStr.is_ascii_capital c' = false.
Proof.
  unfold PyStr.to_lower. destruct (c <? 128)%N eqn:Hc.
  - intros Hin. apply elem_of_cons in Hin as [->|Hin];
      [apply ascii_lower_not_capital | by apply elem_of_nil in Hin].
  - apply PyStr.tolower_full_no_capital. now apply N.ltb_ge.
Qed.

Lemma lower_from_no_ascii_capital before s :
  Spec.no_ascii_capital (PyStr.lower_from db before s) = true.
Proof.
  unfold Spec.no_ascii_capital. revert before.
  induction s as [|c s IH]; intros before; [done|].
  cbn [PyStr.lower_from]. cbn zeta.
  rewrite chars_app, forallb_app, chars_of_chars, IH, andb_true_r.
  apply forallb_forall. intros c' Hin%list_elem_of_In.
  apply negb_true_iff.
  destruct (c =? PyStr.SIGMA)%N.
  - apply elem_of_cons in Hin as [->|Hin]; [|by apply elem_of_nil in Hin].
    now destruct (before && PyStr.final_after db s).
  - eapply to_lower_not_capital, Hin.
Qed.

(** A lower-cased string holds none of [A] to [Z]. *)
Lemma lower_no_ascii_capital s : Spec.no_ascii_capital (PyStr.lower db s) = true.
Proof. apply lower_from_no_ascii_capital. Qed.

End Lowering.

(** ** Lower-casing, in the statements' own words *)


Section LoweringAscii.
Context (db : PyStr.Ucd).








End LoweringAscii.

Lemma prefix_chars needle hay c :
  Str.prefix needle hay = true ->
  c ∈ Str.chars needle -> c ∈ Str.chars hay.
Proof.
  revert hay; induction needle as [|a needle IH]; intros hay Hp Hc; simpl in *.
  - by apply elem_of_nil in Hc.
  - destruct hay as [|b hay]; [discriminate|].
    simpl in *. destruct (N.eq_dec a b) as [->|]; [|discriminate].
    apply elem_of_cons in Hc as [->|Hc]; [left | right; eauto].
Qed.

Lemma contains_chars needle hay c :
  PyStr.contains needle hay = true ->
  c ∈ Str.chars needle -> c ∈ Str.chars hay.
Proof.
  induction hay as [|b hay IH]; intros H Hc; cbn [PyStr.contains] in H;
    apply orb_true_iff in H as [H|H]; try discriminate.
  - eapply prefix_chars; eauto.
  - eapply prefix_chars; eauto.
  - cbn. right. auto.
Qed.

(** A keyword with a capital letter in it is found in no lower-cased href. *)
Lemma capital_keyword_never_found db keyword href :
  Spec.no_ascii_capital keyword = false ->
  PyStr.contains keyword (PyStr.lower db href) = false.
Proof.
  intros Hk. destruct (PyStr.contains keyword (PyStr.lower db href)) eqn:Hc; [|done].
  exfalso. unfold Spec.no_ascii_capital in Hk.
  apply not_true_iff_false in Hk. apply Hk.
  apply forallb_forall. intros c Hin%list_elem_of_In.
  eapply contains_chars in Hin; [|exact Hc].
  pose proof (lower_no_ascii_capital db href) as Hl. unfold Spec.no_ascii_capital in Hl.
  rewrite forallb_forall in Hl. apply Hl. now apply list_elem_of_In.
Qed.

(** So the keyword test comes down to the five lower-case keywords. *)
Lemma relevant_lower db href :
  Spec.relevant (PyStr.lower db href)
  = existsb (fun keyword => PyStr.contains keyword (PyStr.lower db href))
            [ "home"; "about"; "contact"; "services"; "products" ].
Proof.
  unfold Spec.relevant, RELEVANT_LINKS. cbn [existsb].
  rewrite (capital_keyword_never_found db "Contact Us" href) by reflexivity.
  rewrite (capital_keyword_never_found db "About Lenovo" href) by reflexivity.
  rewrite (capital_keyword_never_found db "Investors" href) by reflexivity.
  rewrite (capital_keyword_never_found db "Vehicles" href) by reflexivity.
  reflexivity.
Qed.

(** ** Link discovery *)

Lemma Forall2_pick_l {A B} (P : A -> B -> Prop) (l : list A) (k : list B) x :
  Forall2 P l k -> x ∈ l -> exists y, y ∈ k /\ P x y.
Proof.
  induction 1 as [|a b l k Hab _ IH]; intros Hx; [by apply elem_of_nil in Hx|].
  apply elem_of_cons in Hx as [->|Hx].
  - exists b. split; [left | done].
  - destruct (IH Hx) as (y & Hy & HP). exists y. split; [now right | done].
Qed.

Lemma Forall2_pick_r {A B} (P : A -> B -> Prop) (l : list A) (k : list B) y :
  Forall2 P l k -> y ∈ k -> exists x, x ∈ l /\ P x y.
Proof.
  induction 1 as [|a b l k Hab _ IH]; intros Hy; [by apply elem_of_nil in Hy|].
  apply elem_of_cons in Hy as [->|Hy].
  - exists a. split; [left | done].
  - destruct (IH Hy) as (x & Hx & HP). exists x. split; [now right | done].
Qed.

Lemma relevant_hrefs_elem_of db root href :
  href ∈ Spec.relevant_hrefs db root <->
  exists anchor value,
    anchor ∈ Bs4.find_all_with "a" "href" root /\
    Bs4.get anchor "href" = Some value /\
    Spec.relevant (PyStr.lower db value) = true /\
    href = PyStr.lower db value.
Proof.
  unfold Spec.relevant_hrefs, Spec.hrefs. rewrite list_elem_of_filter. split.
  - intros [Hrel Hin].
    apply list_elem_of_fmap in Hin as (value & -> & Hin).
    apply list_elem_of_omap in Hin as (anchor & Hin & Hget). eauto 10.
  - intros (anchor & value & Hin & Hget & Hrel & ->).
    split; [done|].
    apply list_elem_of_fmap_2. apply list_elem_of_omap. eauto.
Qed.

Section Discovery.
Context {E : Env}.

Lemma after_nil (st : state E) : Spec.after st (world st) [] = st.
Proof. destruct st. unfold Spec.after. simpl. now rewrite app_nil_r. Qed.

Lemma after_after (st : state E) w1 l1 w2 l2 :
  Spec.after (Spec.after st w1 l1) w2 l2 = Spec.after st w2 (l1 ++ l2).
Proof. unfold Spec.after. simpl. now rewrite app_assoc. Qed.

(** When [urljoin] resolves the relevant hrefs, the loop over the anchors
    collects the URLs and prints a line for each. *)
Lemma links_loop (base_url : string) (anchors : list Bs4.node)
      (urls acc : list string) (st : state E) :
  Forall (fun anchor => is_Some (Bs4.get anchor "href")) anchors ->
  Forall2 (fun href url => urljoin E base_url href = Return url)
          (filter (fun href => Spec.relevant href = true)
                  (PyStr.lower (ucd E) <$> omap (fun anchor => Bs4.get anchor "href") anchors))
          urls ->
  for_each anchors
    (fun links anchor =>
       value <- getitem anchor "href" ;;
       let href := PyStr.lower (ucd E) value in
       if existsb (fun keyword => PyStr.contains keyword href) RELEVANT_LINKS
       then
         full_url <- lift (urljoin E base_url href) ;;
         let links := links ++ [full_url] in
         print ("Found relevant link: " +:+ full_url) ;;;
         ret links
       else ret links)
    acc st
  = (Return (acc ++ urls),
     Spec.after st (world st) (Str.append "Found relevant link: " <$> urls)).
Proof.
  intros Hall. revert urls acc st.
  induction Hall as [|anchor anchors [value Hv] _ IH]; intros urls acc st Hres.
  - apply Forall2_nil_inv_l in Hres as ->. cbn. now rewrite app_nil_r, after_nil.
  - cbn [omap list_omap] in Hres. rewrite Hv, fmap_cons, filter_cons in Hres.
    cbn [for_each]. unfold bind at 1. unfold bind at 1. unfold getitem at 1.
    rewrite Hv. cbn [ret]. cbn zeta.
    fold (Spec.relevant (PyStr.lower (ucd E) value)).
    destruct (Spec.relevant (PyStr.lower (ucd E) value)) eqn:Hrel.
    + rewrite decide_True in Hres by done.
      apply Forall2_cons_inv_l in Hres as (url & urls' & Hu & Hres & ->).
      unfold bind at 1, lift at 1. rewrite Hu.
      unfold bind at 1, print at 1, ret at 1.
      rewrite (IH _ _ _ Hres). rewrite !fmap_cons.
      unfold Spec.after. cbn. rewrite <- !app_assoc. reflexivity.
    + rewrite decide_False in Hres by done.
      unfold ret at 1. now rewrite (IH _ _ _ Hres).
Qed.

(** An error of requests in the fetch ends [get_relevant_links] with the
    empty list. *)
Lemma get_relevant_links_caught (base_url : string) (st : state E) e st1 :
  fetch base_url st = (Raise e, st1) ->
  is_RequestException e = true ->
  get_relevant_links base_url st =
    (Return [],
     Spec.after st1 (world st1)
                [ "Error fetching " +:+ base_url +:+ ": " +:+ str e ]).
Proof.
  intros Hf He. unfold get_relevant_links, bind at 1, try_except, bind at 1.
  now rewrite Hf, He.
Qed.

(** A page that is fetched and parsed, and whose relevant hrefs [urljoin]
    resolves, gives the set of the resolved URLs. *)
Lemma get_relevant_links_found (base_url : string) (st : state E)
      response st1 root urls :
  fetch base_url st = (Return response, st1) ->
  BeautifulSoup E (text response) = Return root ->
  Spec.resolves E base_url root urls ->
  get_relevant_links base_url st =
    (Return (list_set E urls),
     Spec.after st1 (world st1) (Str.append "Found relevant link: " <$> urls)).
Proof.
  intros Hf Hp Hres. unfold get_relevant_links, bind at 1, try_except, bind at 1.
  rewrite Hf. cbn [ret]. unfold bind at 1, parse, lift at 1. rewrite Hp.
  unfold bind at 1. rewrite (links_loop base_url _ urls).
  - reflexivity.
  - unfold Bs4.find_all_with. apply Forall_forall.
    intros anchor Hin. now apply list_elem_of_filter in Hin as [? _].
  - exact Hres.
Qed.

(** The resolved URLs are those of the anchors that pass the keyword test. *)
Lemma resolves_elem_of base_url root urls url :
  Spec.resolves E base_url root urls ->
  url ∈ urls <->
  exists anchor value,
    anchor ∈ Bs4.find_all_with "a" "href" root /\
    Bs4.get anchor "href" = Some value /\
    Spec.relevant (PyStr.lower (ucd E) value) = true /\
    urljoin E base_url (PyStr.lower (ucd E) value) = Return url.
Proof.
  intros Hres. split.
  - intros Hin. destruct (Forall2_pick_r _ _ _ _ Hres Hin) as (href & Hh & Hu).
    apply relevant_hrefs_elem_of in Hh as (anchor & value & Hin' & Hget & Hrel & ->).
    eauto 10.
  - intros (anchor & value & Hin & Hget & Hrel & Hu).
    assert (Hh : PyStr.lower (ucd E) value ∈ Spec.relevant_hrefs (ucd E) root)
      by (apply relevant_hrefs_elem_of; eauto 10).
    destruct (Forall2_pick_l _ _ _ _ Hres Hh) as (url' & Hin' & Hu').
    rewrite Hu in Hu'. now injection Hu' as ->.
Qed.

End Discovery.

(** ** What link discovery returns *)

Lemma occurrences_absent x l : x ∉ l -> Spec.occurrences x l = 0.
Proof.
  unfold Spec.occurrences. induction l as [|a l IH]; intros Hx; [done|].
  apply not_elem_of_cons in Hx as [Hne Hx].
  rewrite filter_cons, decide_False by congruence. auto.
Qed.

Lemma occurrences_NoDup x l : NoDup l -> x ∈ l -> Spec.occurrences x l = 1.
Proof.
  induction 1 as [|a l Ha Hnd IH]; intros Hx; [by apply elem_of_nil in Hx|].
  unfold Spec.occurrences in *. rewrite filter_cons.
  destruct (decide (a = x)) as [->|Hne].
  - simpl. f_equal. now apply occurrences_absent.
  - apply elem_of_cons in Hx as [->|Hx]; [done | auto].
Qed.

Lemma list_set_NoDup E items :
  list_set_lawful E -> NoDup (list_set E items).
Proof. intros H. rewrite (H items). apply NoDup_elements. Qed.

Lemma list_set_elem_of E items x :
  list_set_lawful E -> x ∈ list_set E items <-> x ∈ items.
Proof.
  intros H. rewrite (H items), elem_of_elements. apply elem_of_list_to_set.
Qed.

Section Returned.
Context {E : Env}.

(** C9. When the homepage is fetched and parsed and its relevant hrefs are
    resolved, the list [get_relevant_links] returns has no element twice, and
    the URL resolved for any anchor whose href passes the keyword test stands
    in it exactly once, however many anchors resolve to it. *)
Theorem get_relevant_links_exactly_once (base_url : string) (st : state E)
        (response : Response) (st1 : state E) (root : Bs4.node)
        (urls : list string) :
  list_set_lawful E ->
  fetch base_url st = (Return response, st1) ->
  BeautifulSoup E (text response) = Return root ->
  Spec.resolves E base_url root urls ->
  exists result st',
    get_relevant_links base_url st = (Return result, st') /\
    NoDup result /\
    forall anchor value url,
      anchor ∈ Bs4.find_all_with "a" "href" root ->
      Bs4.get anchor "href" = Some value ->
      Spec.relevant (PyStr.lower (ucd E) value) = true ->
      urljoin E base_url (PyStr.lower (ucd E) value) = Return url ->
      Spec.occurrences url result = 1.
Proof.
  intros Hset Hf Hp Hres.
  rewrite (get_relevant_links_found _ _ _ _ _ _ Hf Hp Hres).
  eexists _, _. split; [reflexivity|]. split; [now apply list_set_NoDup|].
  intros anchor value url Hin Hget Hrel Hu.
  apply occurrences_NoDup; [now apply list_set_NoDup|].
  apply list_set_elem_of; [done|].
  apply (resolves_elem_of _ _ _ _ Hres). eauto 10.
Qed.


End Returned.

Lemma Demo_list_set_lawful service : list_set_lawful (Demo.env_with service).
Proof. intros items. reflexivity. Qed.

Lemma Demo_home_resolves :
  Spec.resolves Demo.env "https://example.com" Demo.home_root
                [ "https://example.com/about"; "https://example.com/about" ].
Proof. repeat constructor. Qed.

Lemma get_relevant_links_exactly_once_witness :
  list_set_lawful Demo.env
  /\ exists result st',
      get_relevant_links "https://example.com" Demo.start = (Return result, st') /\
      NoDup result /\
      forall anchor value url,
        anchor ∈ Bs4.find_all_with "a" "href" Demo.home_root ->
        Bs4.get anchor "href" = Some value ->
        Spec.relevant (PyStr.lower (ucd Demo.env) value) = true ->
        urljoin Demo.env "https://example.com" (PyStr.lower (ucd Demo.env) value) = Return url ->
        Spec.occurrences url result = 1.
Proof.
  split.
  - apply Demo_list_set_lawful.
  - apply (get_relevant_links_exactly_once "https://example.com" Demo.start
             (mkResponse 200 "OK" "https://example.com" Demo.HOME_MARKUP)
             Demo.start Demo.home_root
             [ "https://example.com/about"; "https://example.com/about" ]).
    + apply Demo_list_set_lawful.
    + reflexivity.
    + reflexivity.
    + apply Demo_home_resolves.
Defined.



Lemma Press_list_set_lawful : list_set_lawful Press.env.
Proof. intros items. reflexivity. Qed.


(** The two anchors of the sample homepage that differ in letter case only
    give one link. *)
Example get_relevant_links_home :
  fst (get_relevant_links "https://example.com" Demo.start)
  = Return [ "https://example.com/about" ].
Proof. vm_compute. reflexivity. Qed.

(** C1. The keyword test lower-cases the href and leaves the keywords as they
    are written, so a keyword with a capital letter is never found: the sample
    homepage has an anchor whose href contains the keyword Investors,
    whatever the letter case, and the URL of that anchor is not in what
    [get_relevant_links] returns, neither as written nor lower-cased. *)
Theorem get_relevant_links_misses_capital_keyword :
  "Investors" ∈ RELEVANT_LINKS
  /\ "/Investors" ∈ Spec.hrefs Demo.home_root
  /\ Spec.contains_ignoring_case (ucd Demo.env) "Investors" "/Investors" = true
  /\ urljoin Demo.env "https://example.com" "/Investors"
     = Return "https://example.com/Investors"
  /\ urljoin Demo.env "https://example.com" (PyStr.lower (ucd Demo.env) "/Investors")
     = Return "https://example.com/investors"
  /\ exists result st',
      get_relevant_links "https://example.com" Demo.start = (Return result, st')
      /\ ("https://example.com/Investors" ∉ result)
      /\ ("https://example.com/investors" ∉ result).
Proof.
  split; [|split; [|split; [|split; [|split]]]].
  - apply (bool_decide_unpack _). vm_compute. exact I.
  - apply (bool_decide_unpack _). vm_compute. exact I.
  - reflexivity.
  - reflexivity.
  - reflexivity.
  - eexists _, _. split; [vm_compute; reflexivity|].
    split; apply (bool_decide_unpack _); vm_compute; exact I.
Qed.

(** ** A site whose pages all fail *)

Lemma join_empty_strings n :
  PyStr.join " " (replicate n EmptyString) = Spec.spaces (n - 1).
Proof.
  unfold PyStr.join. destruct n as [|n]; [done|].
  simpl. rewrite Nat.sub_0_r.
  induction n as [|n IH]; [done|].
  change (replicate (S n) EmptyString)
    with (EmptyString :: replicate n EmptyString) in *.
  cbn [Str.concat replicate] in *.
  destruct n; [done|]. cbn in *. now rewrite IH.
Qed.

Section DeadSite.
Context {E : Env}.

(** When every page is out of reach, every [scrape_text] returns the empty
    string. *)
Lemma generate_scrape_text_unreachable (pages : list string) (st : state E) :
  Spec.all_unreachable pages (world st) ->
  exists w lines,
    generate scrape_text pages st
    = (Return (replicate (length pages) EmptyString), Spec.after st w lines).
Proof.
  revert st. induction pages as [|page pages IH]; intros st Hall.
  - exists (world st), []. simpl. unfold ret. now rewrite after_nil.
  - destruct Hall as [Hpage Hall].
    destruct (scrape_text_out_of_reach page st Hpage) as [msg Hs].
    cbn [generate]. erewrite bind_Return by exact Hs.
    destruct (IH (Spec.after st (requests_get E page 10 (world st)).2
                             [ "Error scraping " +:+ page +:+ ": " +:+ msg ]) Hall)
      as (w & lines & Hg).
    erewrite bind_Return by exact Hg.
    eexists _, _. unfold ret. rewrite after_after. reflexivity.
Qed.

(** [extract_details] raises only what the model call raises, and only when
    that is no error of requests. *)
Lemma extract_details_Raise (text : string) (st : state E) e st' :
  extract_details text st = (Raise e, st') ->
  ask (prompt_of text) st = (Raise e, st') /\ is_RequestException e = false.
Proof.
  unfold extract_details, try_except.
  destruct (ask (prompt_of text) st) as [[answer|e0] st0]; [discriminate|].
  destruct (is_RequestException e0) eqn:He0.
  - unfold bind, print, ret. discriminate.
  - intros [= <- <-]. done.
Qed.

(** One turn of the loop of [main], from the call of [extract_details] on:
    the record is appended and the script sleeps when the call returns, and
    the turn ends there when it raises. *)
Lemma record_site_cases (results : list Pd.dict) (url text : string)
      (st : state E) :
  record_site results url text st
  = match extract_details text st with
    | (Return details, st') =>
        (Return (results ++ [ [ ("URL", url); ("Extracted Details", details) ] ]),
         mkState (sleep E 5 (world st')) (stdout st') (files st'))
    | (Raise e, st') => (Raise e, st')
    end.
Proof.
  unfold record_site, bind at 1.
  destruct (extract_details text st) as [[details|e] st']; reflexivity.
Qed.

(** C2, as the code has it. When every discovered page of a site is out of
    reach, every [scrape_text] returns the empty string and [extract_details]
    is called, in the state the scrapes leave, with these texts joined by
    single spaces: one space fewer than there are pages, so the empty string
    when at most one page was discovered.  When the call returns, the site's
    record is appended; the call raises only what the model call itself
    raises. *)
Theorem process_site_all_unreachable (results : list Pd.dict) (url : string)
        (st : state E) (pages : list string) (st1 : state E) :
  get_relevant_links url (Spec.after st (world st) [ "Processing: " +:+ url ])
    = (Return pages, st1) ->
  Spec.all_unreachable pages (world st1) ->
  exists st2,
    generate scrape_text pages st1
    = (Return (replicate (length pages) EmptyString), st2)
    /\ process_site results url st
       = match extract_details (Spec.spaces (length pages - 1)) st2 with
         | (Return details, st3) =>
             (Return (results
                      ++ [ [ ("URL", url); ("Extracted Details", details) ] ]),
              mkState (sleep E 5 (world st3)) (stdout st3) (files st3))
         | (Raise e, st3) => (Raise e, st3)
         end
    /\ (length pages <= 1 -> Spec.spaces (length pages - 1) = EmptyString)
    /\ (forall e st3,
           extract_details (Spec.spaces (length pages - 1)) st2 = (Raise e, st3) ->
           ask (prompt_of (Spec.spaces (length pages - 1))) st2 = (Raise e, st3)
           /\ is_RequestException e = false).
Proof.
  intros Hlinks Hall.
  destruct (generate_scrape_text_unreachable pages st1 Hall) as (w & lines & Hg).
  exists (Spec.after st1 w lines). split; [exact Hg|]. split; [|split].
  - rewrite <- record_site_cases.
    unfold process_site. unfold bind at 1, print at 1.
    fold (Spec.after st (world st) [ "Processing: " +:+ url ]).
    erewrite bind_Return by exact Hlinks.
    erewrite bind_Return by exact Hg.
    now rewrite join_empty_strings.
  - intros Hlen. now replace (length pages - 1) with 0 by lia.
  - intros e st3. apply extract_details_Raise.
Qed.

End DeadSite.

Lemma process_site_all_unreachable_witness :
  get_relevant_links "https://dead.example"
                     (Spec.after Demo.start [] [ "Processing: https://dead.example" ])
    = (Return [ "https://dead.example/about"; "https://dead.example/contact" ],
       Demo.dead_discovered)
  /\ Spec.all_unreachable [ "https://dead.example/about"; "https://dead.example/contact" ]
                          (world Demo.dead_discovered)
  /\ process_site [] "https://dead.example" Demo.start
     = (Return [ [ ("URL", "https://dead.example");
                   ("Extracted Details", "Not Available") ] ],
        mkState (E := Demo.env)
                [ prompt_of " " ]
                [ "Processing: https://dead.example";
                  "Found relevant link: https://dead.example/about";
                  "Found relevant link: https://dead.example/contact";
                  "Error scraping https://dead.example/about: 404 Client Error: Not Found for url: https://dead.example/about";
                  "Error scraping https://dead.example/contact: connection refused" ]
                ∅)
  /\ exists st2,
      generate scrape_text
               [ "https://dead.example/about"; "https://dead.example/contact" ]
               Demo.dead_discovered
      = (Return [ EmptyString; EmptyString ], st2)
      /\ process_site [] "https://dead.example" Demo.start
         = match extract_details " " st2 with
           | (Return details, st3) =>
               (Return [ [ ("URL", "https://dead.example");
                           ("Extracted Details", details) ] ],
                mkState (sleep Demo.env 5 (world st3)) (stdout st3) (files st3))
           | (Raise e, st3) => (Raise e, st3)
           end
      /\ (2 <= 1 -> " " = EmptyString)
      /\ (forall e st3,
             extract_details " " st2 = (Raise e, st3) ->
             ask (prompt_of " ") st2 = (Raise e, st3)
             /\ is_RequestException e = false).
Proof.
  split; [vm_compute; reflexivity|].
  split; [repeat split; simpl; lia|].
  split; [vm_compute; reflexivity|].
  apply (process_site_all_unreachable [] "https://dead.example" Demo.start
           [ "https://dead.example/about"; "https://dead.example/contact" ]
           Demo.dead_discovered).
  - vm_compute. reflexivity.
  - repeat split; simpl; lia.
Defined.

(** The site of the sample world whose two inner pages are both out of reach:
    both scrapes return the empty string, and the prompt the model service
    receives is built from one space, not from the empty string. *)
Lemma all_pages_fail_text_not_empty :
  get_relevant_links "https://dead.example"
                     (Spec.after Demo.start [] [ "Processing: https://dead.example" ])
    = (Return Demo.dead_pages, Demo.dead_discovered)
  /\ Spec.all_unreachable Demo.dead_pages (world Demo.dead_discovered)
  /\ fst (generate scrape_text Demo.dead_pages Demo.dead_discovered)
     = Return [ EmptyString; EmptyString ]
  /\ process_site [] "https://dead.example" Demo.start
     = record_site [] "https://dead.example" " "
                   (snd (generate scrape_text Demo.dead_pages Demo.dead_discovered))
  /\ process_site [] "https://dead.example" Demo.start
     <> record_site [] "https://dead.example" EmptyString
                    (snd (generate scrape_text Demo.dead_pages Demo.dead_discovered))
  /\ world (snd (process_site [] "https://dead.example" Demo.start))
     = [ prompt_of " " ].
Proof.
  split; [vm_compute; reflexivity|].
  split; [repeat split; simpl; lia|].
  split; [vm_compute; reflexivity|].
  split; [vm_compute; reflexivity|].
  split; [vm_compute; discriminate|].
  vm_compute. reflexivity.
Qed.

(** ** The table [main] writes *)

Lemma first_seen_all_seen (seen keys : list string) :
  Forall (fun k => k ∈ seen) keys -> Pd.first_seen seen keys = [].
Proof.
  induction 1 as [|k keys Hk _ IH]; [done|].
  simpl. now rewrite bool_decide_eq_true_2.
Qed.

Lemma keys_of_records (urls details seen : list string) :
  "URL" ∈ seen -> "Extracted Details" ∈ seen ->
  Forall (fun k => k ∈ seen)
         (flat_map (map fst) (zip_with Spec.record_of urls details)).
Proof.
  intros Hu Hd. revert details.
  induction urls as [|u urls IH]; intros [|d details]; simpl; try constructor; auto.
Qed.

Lemma rows_of_records urls details :
  map (fun d => map (fun c => default EmptyString (Pd.dict_get d c))
                    [ "URL"; "Extracted Details" ])
      (zip_with Spec.record_of urls details)
  = zip_with Spec.row_of urls details.
Proof.
  revert details. induction urls as [|u urls IH]; intros [|d details]; try done.
  simpl. now rewrite IH.
Qed.

(** The frame built from one record per site has the two columns, and one
    row per site. *)
Lemma to_csv_rows_records urls details :
  urls <> [] -> length details = length urls ->
  Pd.to_csv_rows (Pd.DataFrame_of (zip_with Spec.record_of urls details))
  = [ "URL"; "Extracted Details" ] :: zip_with Spec.row_of urls details.
Proof.
  intros Hne Hlen. unfold Pd.to_csv_rows, Pd.DataFrame_of. cbn [Pd.columns Pd.rows].
  assert (Hcols : Pd.first_seen [] (flat_map (map fst)
                                      (zip_with Spec.record_of urls details))
                  = [ "URL"; "Extracted Details" ]).
  { destruct urls as [|u urls]; [done|]. destruct details as [|d details]; [done|].
    simpl. rewrite first_seen_all_seen; [done|].
    apply keys_of_records; set_solver. }
  rewrite Hcols. now rewrite rows_of_records.
Qed.

Section Table.
Context {E : Env}.

Lemma bind_inv_Return {A B} (c : M E A) (k : A -> M E B) st b st' :
  bind c k st = (Return b, st') ->
  exists a st1, c st = (Return a, st1) /\ k a st1 = (Return b, st').
Proof.
  unfold bind. destruct (c st) as [[a|e] st1]; [eauto | discriminate].
Qed.

(** A turn of the loop that comes to its end has appended one record, for
    the site at hand. *)
Lemma process_site_Return results url (st : state E) results' st' :
  process_site results url st = (Return results', st') ->
  exists details, results' = results ++ [ Spec.record_of url details ].
Proof.
  unfold process_site. intros H.
  apply bind_inv_Return in H as (_ & st1 & _ & H).
  apply bind_inv_Return in H as (pages & st2 & _ & H).
  apply bind_inv_Return in H as (texts & st3 & _ & H).
  unfold record_site in H.
  apply bind_inv_Return in H as (details & st4 & _ & H).
  apply bind_inv_Return in H as (_ & st5 & _ & H).
  unfold ret in H. injection H as <- _. eauto.
Qed.

Lemma for_each_process_site_Return urls results (st : state E) results' st' :
  for_each urls process_site results st = (Return results', st') ->
  exists details,
    length details = length urls /\
    results' = results ++ zip_with Spec.record_of urls details.
Proof.
  revert results st. induction urls as [|url urls IH]; intros results st H.
  - injection H as <- _. exists []. now rewrite app_nil_r.
  - cbn [for_each] in H. apply bind_inv_Return in H as (r1 & st1 & H1 & H).
    apply process_site_Return in H1 as [d ->].
    apply IH in H as (details & Hlen & ->).
    exists (d :: details). split; [simpl; lia|].
    now rewrite <- app_assoc.
Qed.

Lemma main_over_Return urls (st : state E) st' :
  urls <> [] ->
  main_over urls st = (Return tt, st') ->
  exists details,
    length details = length urls /\
    files st' !! OUTPUT_FILE
    = Some ([ "URL"; "Extracted Details" ] :: zip_with Spec.row_of urls details).
Proof.
  intros Hne H. unfold main_over in H.
  apply bind_inv_Return in H as (results & st1 & Hloop & H).
  apply for_each_process_site_Return in Hloop as (details & Hlen & ->).
  exists details. split; [done|].
  apply bind_inv_Return in H as ([] & st2 & Hcsv & H).
  unfold to_csv in Hcsv. apply bind_inv_Return in Hcsv as ([] & st3 & _ & Hw).
  unfold write_file in Hw. injection Hw as <-.
  unfold print in H. injection H as <-.
  cbn [files]. rewrite lookup_insert_eq. f_equal.
  now apply to_csv_rows_records.
Qed.

(** *** In a world that fails softly, every function returns *)

Lemma fetch_fail_soft url (st : state E) :
  Spec.fail_soft E ->
  (exists response st1, fetch url st = (Return response, st1)) \/
  (exists e st1, fetch url st = (Raise e, st1) /\ is_RequestException e = true).
Proof.
  intros (Hget & _). unfold fetch, bind, call.
  destruct (requests_get E url 10 (world st)) as [[r|e] w] eqn:Hr.
  - unfold raise_for_status, raise, ret.
    destruct ((400 <=? status_code r) && (status_code r <? 500))%Z;
      [right; eauto 10|].
    destruct ((500 <=? status_code r) && (status_code r <? 600))%Z;
      [right; eauto 10 | left; eauto].
  - right. eauto.
Qed.

Lemma resolves_total base_url root :
  (forall base href, exists url, urljoin E base href = Return url) ->
  exists urls, Spec.resolves E base_url root urls.
Proof.
  intros Hjoin. unfold Spec.resolves.
  induction (Spec.relevant_hrefs (ucd E) root) as [|href hrefs [urls IH]].
  - exists []. constructor.
  - destruct (Hjoin base_url href) as [url Hu].
    exists (url :: urls). now constructor.
Qed.

Lemma get_relevant_links_total url (st : state E) :
  Spec.fail_soft E -> exists pages st', get_relevant_links url st = (Return pages, st').
Proof.
  intros Hsoft.
  destruct (fetch_fail_soft url st Hsoft) as [(r & st1 & Hf)|(e & st1 & Hf & He)].
  - destruct Hsoft as (_ & Hparse & Hjoin & _).
    destruct (Hparse (text r)) as [root Hp].
    destruct (resolves_total url root Hjoin) as [urls Hres].
    rewrite (get_relevant_links_found _ _ _ _ _ _ Hf Hp Hres). eauto.
  - rewrite (get_relevant_links_caught _ _ _ _ Hf He). eauto.
Qed.

Lemma scrape_text_total url (st : state E) :
  Spec.fail_soft E -> exists s st', scrape_text url st = (Return s, st').
Proof.
  intros Hsoft. rewrite scrape_text_cases.
  destruct (fetch_fail_soft url st Hsoft) as [(r & st1 & ->)|(e & st1 & -> & ->)];
    [|eauto].
  destruct Hsoft as (_ & Hparse & _). destruct (Hparse (text r)) as [root ->]. eauto.
Qed.

Lemma generate_scrape_text_total pages (st : state E) :
  Spec.fail_soft E ->
  exists texts st', generate scrape_text pages st = (Return texts, st').
Proof.
  intros Hsoft. revert st. induction pages as [|page pages IH]; intros st.
  - eexists _, _. reflexivity.
  - destruct (scrape_text_total page st Hsoft) as (s & st1 & Hs).
    destruct (IH st1) as (texts & st2 & Hg).
    cbn [generate]. erewrite bind_Return by exact Hs.
    erewrite bind_Return by exact Hg. eexists _, _. reflexivity.
Qed.

Lemma ask_fail_soft prompt (st : state E) :
  Spec.fail_soft E ->
  (exists answer st', ask prompt st = (Return answer, st')) \/
  (exists e st', ask prompt st = (Raise e, st') /\ is_RequestException e = true).
Proof.
  intros (_ & _ & _ & Hrand & Hgen & Hreply & _).
  unfold ask, random_choice, bind, call, lift.
  specialize (Hrand (length MODELS) (world st)).
  destruct (randbelow E (length MODELS) (world st)) as [i w].
  destruct (lookup_lt_is_Some_2 MODELS i) as [model Hm]; [apply Hrand; simpl; lia|].
  rewrite Hm. unfold ret. simpl.
  destruct (generate_content E model prompt w) as [[r|e] w'] eqn:Hg; simpl.
  - destruct (reply_text r) as [answer|e] eqn:Hr; [eauto|].
    right. eauto 10.
  - right. eauto 10.
Qed.

Lemma extract_details_total text (st : state E) :
  Spec.fail_soft E -> exists details st', extract_details text st = (Return details, st').
Proof.
  intros Hsoft. unfold extract_details, try_except.
  destruct (ask_fail_soft (prompt_of text) st Hsoft)
    as [(a & st' & ->)|(e & st' & -> & ->)]; eauto.
Qed.

Lemma process_site_total results url (st : state E) :
  Spec.fail_soft E -> exists results' st', process_site results url st = (Return results', st').
Proof.
  intros Hsoft. unfold process_site. unfold bind at 1, print at 1.
  destruct (get_relevant_links_total url
              (mkState (world st) (stdout st ++ [ "Processing: " +:+ url ]) (files st))
              Hsoft) as (pages & st1 & Hl).
  erewrite bind_Return by exact Hl.
  destruct (generate_scrape_text_total pages st1 Hsoft) as (texts & st2 & Hg).
  erewrite bind_Return by exact Hg.
  unfold record_site.
  destruct (extract_details_total (PyStr.join " " texts) st2 Hsoft) as (d & st3 & Hd).
  erewrite bind_Return by exact Hd.
  eexists _, _. reflexivity.
Qed.

Lemma main_over_total urls (st : state E) :
  Spec.fail_soft E -> exists st', main_over urls st = (Return tt, st').
Proof.
  intros Hsoft. unfold main_over.
  assert (Hloop : forall results (st0 : state E),
             exists results' st', for_each urls process_site results st0
                                  = (Return results', st')).
  { induction urls as [|url urls IH]; intros results st0.
    - eexists _, _. reflexivity.
    - destruct (process_site_total results url st0 Hsoft) as (r1 & st1 & H1).
      destruct (IH r1 st1) as (r2 & st2 & H2).
      cbn [for_each]. erewrite bind_Return by exact H1. eauto. }
  destruct (Hloop [] st) as (results & st1 & H).
  erewrite bind_Return by exact H.
  destruct Hsoft as (_ & _ & _ & _ & _ & _ & Hopen).
  destruct (Hopen OUTPUT_FILE (world st1)) as [w' Hw].
  unfold to_csv, bind, call. rewrite Hw. eexists. reflexivity.
Qed.

(** C3, as the code has it. Whenever [main] comes to its end, the file it
    wrote has the header row with the columns URL and Extracted Details, then
    one row per seed URL, in the order of [URLS].  And [main] does come to its
    end in every world that fails softly: however many extractions fail there
    with an error of requests, each still gives its row. *)
Theorem main_writes_one_row_per_site (st : state E) :
  (forall st',
      main st = (Return tt, st') ->
      exists details,
        length details = length URLS /\
        files st' !! OUTPUT_FILE
        = Some ([ "URL"; "Extracted Details" ] :: zip_with Spec.row_of URLS details))
  /\ (Spec.fail_soft E -> exists st', main st = (Return tt, st')).
Proof.
  split.
  - intros st'. now apply main_over_Return.
  - intros Hsoft. now apply main_over_total.
Qed.

End Table.

Lemma Demo_offline_fail_soft : Spec.fail_soft Demo.env_offline.
Proof.
  repeat split.
  - intros url t w e w'. simpl. unfold Demo.get.
    repeat case_match; intros [= <- _]; reflexivity.
  - intros markup. simpl. unfold Demo.soup. repeat case_match; eauto.
  - intros base href. simpl. eauto.
  - intros n w Hn. exact Hn.
  - intros model prompt w e w'. simpl. now intros [= <- _].
  - intros model prompt w r w' e. simpl. discriminate.
  - intros path w. simpl. eauto.
Qed.

Lemma main_writes_one_row_per_site_witness :
  Spec.fail_soft Demo.env_offline
  /\ (exists st', main Demo.start_offline = (Return tt, st'))
  /\ exists details,
      length details = length URLS /\
      files (snd (main Demo.start_offline)) !! OUTPUT_FILE
      = Some ([ "URL"; "Extracted Details" ] :: zip_with Spec.row_of URLS details).
Proof.
  split; [exact Demo_offline_fail_soft|].
  split.
  - exact (proj2 (main_writes_one_row_per_site Demo.start_offline)
                 Demo_offline_fail_soft).
  - apply (proj1 (main_writes_one_row_per_site Demo.start_offline)).
    vm_compute. reflexivity.
Defined.

(** With the model service out of reach for all six sites, the file still has
    its six rows, each with an empty second cell. *)
Example main_offline_file :
  files (snd (main Demo.start_offline)) !! OUTPUT_FILE
  = Some ([ "URL"; "Extracted Details" ]
          :: zip_with Spec.row_of URLS (replicate 6 EmptyString)).
Proof. vm_compute. reflexivity. Qed.

(** With a model client that raises an error of its own, the first extraction
    that fails ends the run: [main] raises, and no file is written. *)
Lemma main_broken_client_no_file :
  fst (main Demo.start_broken)
  = Raise (Exception (OtherError "ResourceExhausted") "quota")
  /\ files (snd (main Demo.start_broken)) !! OUTPUT_FILE = None
  /\ world (snd (main Demo.start_broken)) = [ prompt_of EmptyString ].
Proof. vm_compute. repeat split. Qed.

(** * Further properties *)

(** ** What is left alone *)

Section Files.
Context {E : Env}.
Import Frame.

Lemma keeps_files_ret {A} (a : A) : keeps_files (E := E) (ret a).
Proof. intros st. reflexivity. Qed.

Lemma keeps_files_raise {A} e : keeps_files (E := E) (raise (A := A) e).
Proof. intros st. reflexivity. Qed.

Lemma keeps_files_lift {A} (o : outcome A) : keeps_files (E := E) (lift o).
Proof. intros st. reflexivity. Qed.

Lemma keeps_files_print line : keeps_files (E := E) (print line).
Proof. intros st. reflexivity. Qed.

Lemma keeps_files_call {A} (f : World E -> outcome A * World E) :
  keeps_files (call f).
Proof. intros st. unfold call. now destruct (f (world st)). Qed.

Lemma keeps_files_bind {A B} (c : M E A) (k : A -> M E B) :
  keeps_files c -> (forall a, keeps_files (k a)) -> keeps_files (bind c k).
Proof.
  intros Hc Hk st. unfold bind. specialize (Hc st).
  destruct (c st) as [[a|e] st']; simpl in *; [|done].
  now rewrite Hk.
Qed.

Lemma keeps_files_try_except {A} (body : M E A) catches handler :
  keeps_files body -> (forall e, keeps_files (handler e)) ->
  keeps_files (try_except body catches handler).
Proof.
  intros Hb Hh st. unfold try_except. specialize (Hb st).
  destruct (body st) as [[a|e] st']; simpl in *; [done|].
  destruct (catches e); simpl; [|done]. now rewrite Hh.
Qed.

Lemma keeps_files_for_each {A S} (xs : list A) (body : S -> A -> M E S) acc :
  (forall acc x, keeps_files (body acc x)) -> keeps_files (for_each xs body acc).
Proof.
  intros Hb. revert acc. induction xs as [|x xs IH]; intros acc; simpl.
  - apply keeps_files_ret.
  - apply keeps_files_bind; [apply Hb | apply IH].
Qed.

Lemma keeps_files_generate {A B} (f : A -> M E B) (xs : list A) :
  (forall x, keeps_files (f x)) -> keeps_files (generate f xs).
Proof.
  intros Hf. induction xs as [|x xs IH]; simpl.
  - apply keeps_files_ret.
  - apply keeps_files_bind; [apply Hf|]. intros y.
    apply keeps_files_bind; [apply IH|]. intros ys. apply keeps_files_ret.
Qed.

Lemma keeps_files_fetch url : keeps_files (fetch (E := E) url).
Proof.
  unfold fetch. apply keeps_files_bind; [apply keeps_files_call|]. intros r.
  apply keeps_files_bind; [|intros; apply keeps_files_ret].
  unfold raise_for_status.
  repeat case_match; first [apply keeps_files_raise | apply keeps_files_ret].
Qed.

Lemma keeps_files_get_relevant_links url :
  keeps_files (get_relevant_links (E := E) url).
Proof.
  unfold get_relevant_links. apply keeps_files_bind.
  - apply keeps_files_try_except.
    + apply keeps_files_bind; [apply keeps_files_fetch|].
      intros; apply keeps_files_ret.
    + intros e. apply keeps_files_bind; [apply keeps_files_print|].
      intros; apply keeps_files_ret.
  - intros [response|]; [|apply keeps_files_ret].
    apply keeps_files_bind; [apply keeps_files_lift|]. intros soup.
    apply keeps_files_bind; [|intros; apply keeps_files_ret].
    apply keeps_files_for_each. intros links anchor.
    apply keeps_files_bind.
    { unfold getitem. destruct (Bs4.get anchor "href");
        [apply keeps_files_ret | apply keeps_files_raise]. }
    intros value. cbn zeta. case_match; [|apply keeps_files_ret].
    apply keeps_files_bind; [apply keeps_files_lift|]. intros full_url.
    apply keeps_files_bind; [apply keeps_files_print|].
    intros; apply keeps_files_ret.
Qed.

Lemma keeps_files_scrape_text url : keeps_files (scrape_text (E := E) url).
Proof.
  unfold scrape_text. apply keeps_files_bind.
  - apply keeps_files_try_except.
    + apply keeps_files_bind; [apply keeps_files_fetch|].
      intros; apply keeps_files_ret.
    + intros e. apply keeps_files_bind; [apply keeps_files_print|].
      intros; apply keeps_files_ret.
  - intros [response|]; [|apply keeps_files_ret].
    apply keeps_files_bind; [apply keeps_files_lift|]. intros soup.
    apply keeps_files_ret.
Qed.

Lemma keeps_files_extract_details text :
  keeps_files (extract_details (E := E) text).
Proof.
  unfold extract_details. apply keeps_files_try_except.
  - unfold ask. apply keeps_files_bind.
    { unfold random_choice. apply keeps_files_bind; [apply keeps_files_call|].
      intros i. destruct (MODELS !! i);
        [apply keeps_files_ret | apply keeps_files_raise]. }
    intros model. apply keeps_files_bind; [apply keeps_files_call|].
    intros response. apply keeps_files_bind; [apply keeps_files_lift|].
    intros; apply keeps_files_ret.
  - intros e. apply keeps_files_bind; [apply keeps_files_print|].
    intros; apply keeps_files_ret.
Qed.

Lemma keeps_files_process_site results url :
  keeps_files (process_site (E := E) results url).
Proof.
  unfold process_site. apply keeps_files_bind; [apply keeps_files_print|].
  intros _. apply keeps_files_bind; [apply keeps_files_get_relevant_links|].
  intros pages. apply keeps_files_bind.
  { apply keeps_files_generate. intros; apply keeps_files_scrape_text. }
  intros texts. unfold record_site.
  apply keeps_files_bind; [apply keeps_files_extract_details|]. intros d.
  apply keeps_files_bind; [apply keeps_files_call|].
  intros; apply keeps_files_ret.
Qed.

(** X1. However they end, [get_relevant_links], [scrape_text] and
    [extract_details] leave every file as it was. *)
Theorem functions_write_no_file (url text : string) (st : state E) :
  files (snd (get_relevant_links url st)) = files st
  /\ files (snd (scrape_text url st)) = files st
  /\ files (snd (extract_details text st)) = files st.
Proof.
  split; [|split].
  - apply keeps_files_get_relevant_links.
  - apply keeps_files_scrape_text.
  - apply keeps_files_extract_details.
Qed.

(** [main] either leaves the files as they are or ends well with the one
    file written. *)
Lemma main_over_files urls (st : state E) :
  files (snd (main_over urls st)) = files st
  \/ exists content,
      fst (main_over urls st) = Return tt /\
      files (snd (main_over urls st)) = <[OUTPUT_FILE := content]> (files st).
Proof.
  assert (Hloop : files (snd (for_each urls process_site [] st)) = files st).
  { apply (keeps_files_for_each urls process_site []).
    intros; apply keeps_files_process_site. }
  unfold main_over.
  destruct (for_each urls process_site [] st) as [[results|e] st1] eqn:Hfe;
    cbn [snd] in Hloop.
  2:{ left. erewrite bind_Raise by exact Hfe. exact Hloop. }
  erewrite bind_Return by exact Hfe.
  destruct (open_write E OUTPUT_FILE (world st1)) as [[[]|e] w] eqn:Hopen.
  - right. exists (Pd.to_csv_rows (Pd.DataFrame_of results)).
    unfold bind, to_csv, bind, call, write_file, print. rewrite Hopen. cbn.
    now rewrite Hloop.
  - left. unfold bind, to_csv, bind, call. rewrite Hopen. cbn. exact Hloop.
Qed.

(** X2. [main] changes no file but the one named [OUTPUT_FILE]: every other
    path, the one its last message prints among them, holds what it held
    before; and when [main] raises, no file at all has changed, the records
    gathered so far being lost. *)
Theorem main_writes_one_file_or_none (st : state E) :
  (forall path,
      path <> OUTPUT_FILE -> files (snd (main st)) !! path = files st !! path)
  /\ files (snd (main st)) !! Keywords.REPORTED_FILE
     = files st !! Keywords.REPORTED_FILE
  /\ (forall e st', main st = (Raise e, st') -> files st' = files st).
Proof.
  pose proof (main_over_files URLS st) as Hmain. change (main_over URLS st) with (main st) in Hmain.
  split; [|split].
  - intros path Hne. destruct Hmain as [->|(content & _ & ->)]; [done|].
    now rewrite lookup_insert_ne.
  - destruct Hmain as [->|(content & _ & ->)]; [done|].
    now rewrite lookup_insert_ne.
  - intros e st' Hraise. rewrite Hraise in Hmain. simpl in Hmain.
    destruct Hmain as [?|(content & ? & _)]; [done | discriminate].
Qed.

End Files.

Lemma main_writes_one_file_or_none_witness :
  files (snd (main Faulty.demo_start)) !! Keywords.REPORTED_FILE
  = Some [ [ "stale" ] ]
  /\ fst (main Faulty.start)
     = Raise (Exception (OtherError "PermissionError") OUTPUT_FILE)
  /\ files (snd (main Faulty.start)) = Faulty.old_files.
Proof.
  split; [|split].
  - exact (eq_trans (proj1 (proj2 (main_writes_one_file_or_none Faulty.demo_start)))
                    eq_refl).
  - vm_compute. reflexivity.
  - apply (proj2 (proj2 (main_writes_one_file_or_none Faulty.start))
                 (Exception (OtherError "PermissionError") OUTPUT_FILE)
                 (snd (main Faulty.start))).
    vm_compute. reflexivity.
Defined.

(** ** Errors that are not caught *)

Section Escapes.
Context {E : Env}.

(** X3. An error raised by the GET that is no error of requests is caught by
    neither function: it reaches the caller, and nothing is printed. *)
Theorem get_error_outside_requests_escapes (url : string) (st : state E)
        (e : exception) (w' : World E) :
  requests_get E url 10 (world st) = (Raise e, w') ->
  is_RequestException e = false ->
  get_relevant_links url st = (Raise e, mkState w' (stdout st) (files st))
  /\ scrape_text url st = (Raise e, mkState w' (stdout st) (files st)).
Proof.
  intros Hget He.
  assert (Hf : fetch url st = (Raise e, mkState w' (stdout st) (files st))).
  { unfold fetch, bind, call. now rewrite Hget. }
  split.
  - unfold get_relevant_links, bind at 1, try_except, bind at 1.
    now rewrite Hf, He.
  - rewrite scrape_text_cases, Hf. now rewrite He.
Qed.

(** X4. The page is parsed outside the [try] block: whatever the parser
    raises, an error of requests or not, leaves both functions uncaught. *)
Theorem parser_error_escapes (url : string) (st : state E)
        (response : Response) (st1 : state E) (e : exception) :
  fetch url st = (Return response, st1) ->
  BeautifulSoup E (text response) = Raise e ->
  get_relevant_links url st = (Raise e, st1)
  /\ scrape_text url st = (Raise e, st1).
Proof.
  intros Hf Hp. split.
  - unfold get_relevant_links, bind at 1, try_except, bind at 1.
    rewrite Hf. cbn [ret]. unfold bind at 1, parse, lift. now rewrite Hp.
  - now rewrite scrape_text_cases, Hf, Hp.
Qed.

(** X5. For a seed URL out of reach no page is scraped: after the line that
    names the site and the one that reports the error, [extract_details] is
    called with the empty string.  When the call returns, the site's record,
    the URL with what the call returned, is appended and the script sleeps;
    when it raises, the turn ends without a record. *)
Theorem process_site_seed_unreachable (results : list Pd.dict) (url : string)
        (st : state E) :
  Spec.unreachable url (world st) ->
  exists msg,
    process_site results url st
    = match extract_details EmptyString
              (mkState (snd (requests_get E url 10 (world st)))
                       (stdout st ++ [ "Processing: " +:+ url;
                                       "Error fetching " +:+ url +:+ ": " +:+ msg ])
                       (files st)) with
      | (Return details, st2) =>
          (Return (results
                   ++ [ [ ("URL", url); ("Extracted Details", details) ] ]),
           mkState (sleep E 5 (world st2)) (stdout st2) (files st2))
      | (Raise e, st2) => (Raise e, st2)
      end.
Proof.
  intros Hun.
  destruct (fetch_unreachable url
              (mkState (world st) (stdout st ++ [ "Processing: " +:+ url ]) (files st))
              Hun) as (e & He & Hf).
  exists (str e). rewrite <- record_site_cases.
  unfold process_site. unfold bind at 1, print at 1.
  erewrite bind_Return by (apply get_relevant_links_caught; [exact Hf | exact He]).
  cbn [generate]. unfold bind at 1, ret at 1.
  unfold Spec.after. cbn. rewrite app_nil_r, <- app_assoc. reflexivity.
Qed.

End Escapes.

Lemma get_error_outside_requests_escapes_witness :
  get_relevant_links "https://.example" Faulty.start
  = (Raise (Exception (OtherError "UnicodeError") "label empty or too long"),
     Faulty.start)
  /\ scrape_text "https://.example" Faulty.start
     = (Raise (Exception (OtherError "UnicodeError") "label empty or too long"),
        Faulty.start).
Proof.
  apply (get_error_outside_requests_escapes "https://.example" Faulty.start
           (Exception (OtherError "UnicodeError") "label empty or too long") []).
  - reflexivity.
  - reflexivity.
Defined.

Lemma parser_error_escapes_witness :
  get_relevant_links "https://broken.example" Faulty.start
  = (Raise (Exception (OtherError "ParserRejectedMarkup") "rejected"), Faulty.start)
  /\ scrape_text "https://broken.example" Faulty.start
     = (Raise (Exception (OtherError "ParserRejectedMarkup") "rejected"), Faulty.start).
Proof.
  apply (parser_error_escapes "https://broken.example" Faulty.start
           (mkResponse 200 "OK" "https://broken.example" Faulty.REJECTED_MARKUP)
           Faulty.start).
  - reflexivity.
  - reflexivity.
Defined.

Lemma process_site_seed_unreachable_witness :
  Spec.unreachable "https://lenovo.com" (world Demo.start)
  /\ process_site [] "https://lenovo.com" Demo.start
     = (Return [ [ ("URL", "https://lenovo.com");
                   ("Extracted Details", "Not Available") ] ],
        mkState (E := Demo.env)
                [ prompt_of EmptyString ]
                [ "Processing: https://lenovo.com";
                  "Error fetching https://lenovo.com: connection refused" ]
                ∅)
  /\ process_site [] "https://lenovo.com" Demo.start_broken
     = (Raise (Exception (OtherError "ResourceExhausted") "quota"),
        mkState (E := Demo.env_broken)
                [ prompt_of EmptyString ]
                [ "Processing: https://lenovo.com";
                  "Error fetching https://lenovo.com: connection refused" ]
                ∅)
  /\ exists msg,
      process_site [] "https://lenovo.com" Demo.start
      = match extract_details EmptyString
                (mkState (E := Demo.env) []
                         [ "Processing: https://lenovo.com";
                           "Error fetching https://lenovo.com: " +:+ msg ]
                         ∅) with
        | (Return details, st2) =>
            (Return [ [ ("URL", "https://lenovo.com");
                        ("Extracted Details", details) ] ],
             mkState (sleep Demo.env 5 (world st2)) (stdout st2) (files st2))
        | (Raise e, st2) => (Raise e, st2)
        end.
Proof.
  split; [reflexivity|].
  split; [vm_compute; reflexivity|].
  split; [vm_compute; reflexivity|].
  apply (process_site_seed_unreachable [] "https://lenovo.com" Demo.start).
  reflexivity.
Defined.

(** ** Which anchors are followed *)

Lemma relevant_iff_lower_case db value :
  Spec.relevant (PyStr.lower db value) = true <->
  exists keyword,
    keyword ∈ Keywords.LOWER_CASE /\
    Spec.contains_ignoring_case db keyword value = true.
Proof.
  rewrite relevant_lower, existsb_exists. unfold Spec.contains_ignoring_case.
  split.
  - intros (keyword & Hin & Hc). exists keyword.
    apply list_elem_of_In in Hin. split; [exact Hin|].
    unfold Keywords.LOWER_CASE in Hin.
    repeat (apply elem_of_cons in Hin as [->|Hin]; [exact Hc|]).
    by apply elem_of_nil in Hin.
  - intros (keyword & Hin & Hc). exists keyword.
    split; [now apply list_elem_of_In|].
    unfold Keywords.LOWER_CASE in Hin.
    repeat (apply elem_of_cons in Hin as [->|Hin]; [exact Hc|]).
    by apply elem_of_nil in Hin.
Qed.

Lemma length_omap_le {A B} (f : A -> option B) (l : list A) :
  length (omap f l) <= length l.
Proof.
  induction l as [|a l IH]; [done|]. cbn. destruct (f a); simpl; lia.
Qed.

Section Followed.
Context {E : Env}.

(** X6. For a page that is fetched and parsed and whose relevant hrefs are
    resolved, a URL is returned exactly when it is [urljoin] of the base URL
    and the lower-cased href of an anchor whose href contains, letter case
    ignored, one of home, about, contact, services, products; the capitalised
    entries of [RELEVANT_LINKS] select nothing. *)
Theorem get_relevant_links_selects (base_url : string) (st : state E)
        (response : Response) (st1 : state E) (root : Bs4.node)
        (urls : list string) :
  list_set_lawful E ->
  fetch base_url st = (Return response, st1) ->
  BeautifulSoup E (text response) = Return root ->
  Spec.resolves E base_url root urls ->
  exists result st',
    get_relevant_links base_url st = (Return result, st') /\
    forall url,
      url ∈ result <->
      exists anchor value keyword,
        anchor ∈ Bs4.find_all_with "a" "href" root /\
        Bs4.get anchor "href" = Some value /\
        keyword ∈ Keywords.LOWER_CASE /\
        Spec.contains_ignoring_case (ucd E) keyword value = true /\
        urljoin E base_url (PyStr.lower (ucd E) value) = Return url.
Proof.
  intros Hset Hf Hp Hres.
  rewrite (get_relevant_links_found _ _ _ _ _ _ Hf Hp Hres).
  eexists _, _. split; [reflexivity|]. intros url.
  rewrite (list_set_elem_of E urls url Hset), (resolves_elem_of _ _ _ _ Hres).
  split.
  - intros (anchor & value & Hin & Hget & Hrel & Hu).
    apply relevant_iff_lower_case in Hrel as (keyword & Hk & Hc). eauto 10.
  - intros (anchor & value & keyword & Hin & Hget & Hk & Hc & Hu).
    exists anchor, value. repeat split; try done.
    apply relevant_iff_lower_case. eauto.
Qed.

(** X7. [get_relevant_links] prints one line for each anchor that passes the
    keyword test, repeated hrefs included, and returns a list that is never
    longer than the number of those lines, nor than the number of anchors. *)
Theorem get_relevant_links_sizes (base_url : string) (st : state E)
        (response : Response) (st1 : state E) (root : Bs4.node)
        (urls : list string) :
  list_set_lawful E ->
  fetch base_url st = (Return response, st1) ->
  BeautifulSoup E (text response) = Return root ->
  Spec.resolves E base_url root urls ->
  exists result st',
    get_relevant_links base_url st = (Return result, st') /\
    stdout st' = stdout st1 ++ (Str.append "Found relevant link: " <$> urls) /\
    length urls = length (Spec.relevant_hrefs (ucd E) root) /\
    length result <= length urls /\
    length urls <= length (Bs4.find_all_with "a" "href" root).
Proof.
  intros Hset Hf Hp Hres.
  rewrite (get_relevant_links_found _ _ _ _ _ _ Hf Hp Hres).
  eexists _, _. split; [reflexivity|]. split; [reflexivity|].
  assert (Hlen : length urls = length (Spec.relevant_hrefs (ucd E) root)).
  { symmetry. eapply Forall2_length, Hres. }
  split; [exact Hlen|]. split.
  - apply submseteq_length, NoDup_submseteq; [now apply list_set_NoDup|].
    intros x Hx. now apply (list_set_elem_of E urls x Hset).
  - rewrite Hlen. unfold Spec.relevant_hrefs, Spec.hrefs.
    etransitivity; [apply length_filter|].
    rewrite length_fmap. apply length_omap_le.
Qed.

End Followed.

Lemma get_relevant_links_selects_witness :
  list_set_lawful Demo.env
  /\ exists result st',
      get_relevant_links "https://example.com" Demo.start = (Return result, st') /\
      forall url,
        url ∈ result <->
        exists anchor value keyword,
          anchor ∈ Bs4.find_all_with "a" "href" Demo.home_root /\
          Bs4.get anchor "href" = Some value /\
          keyword ∈ Keywords.LOWER_CASE /\
          Spec.contains_ignoring_case (ucd Demo.env) keyword value = true /\
          urljoin Demo.env "https://example.com" (PyStr.lower (ucd Demo.env) value) = Return url.
Proof.
  split.
  - apply Demo_list_set_lawful.
  - apply (get_relevant_links_selects "https://example.com" Demo.start
             (mkResponse 200 "OK" "https://example.com" Demo.HOME_MARKUP)
             Demo.start Demo.home_root
             [ "https://example.com/about"; "https://example.com/about" ]).
    + apply Demo_list_set_lawful.
    + reflexivity.
    + reflexivity.
    + apply Demo_home_resolves.
Defined.

Lemma get_relevant_links_sizes_witness :
  list_set_lawful Demo.env
  /\ exists result st',
      get_relevant_links "https://example.com" Demo.start = (Return result, st') /\
      stdout st'
      = stdout Demo.start
        ++ (Str.append "Found relevant link: "
              <$> [ "https://example.com/about"; "https://example.com/about" ]) /\
      2 = length (Spec.relevant_hrefs (ucd Demo.env) Demo.home_root) /\
      length result <= 2 /\
      2 <= length (Bs4.find_all_with "a" "href" Demo.home_root).
Proof.
  split.
  - apply Demo_list_set_lawful.
  - apply (get_relevant_links_sizes "https://example.com" Demo.start
             (mkResponse 200 "OK" "https://example.com" Demo.HOME_MARKUP)
             Demo.start Demo.home_root
             [ "https://example.com/about"; "https://example.com/about" ]).
    + apply Demo_list_set_lawful.
    + reflexivity.
    + reflexivity.
    + apply Demo_home_resolves.
Defined.

(** ** Cutting the text *)

Lemma slice_to_prefix (n : nat) (s : string) :
  Str.prefix (PyStr.slice_to n s) s = true.
Proof.
  unfold PyStr.slice_to.
  revert s; induction n as [|n IH]; intros [|c s]; simpl; try done.
  destruct (N.eq_dec c c); [apply IH | done].
Qed.

Lemma slice_to_len_min (n : nat) (s : string) :
  PyStr.len (PyStr.slice_to n s) = Nat.min n (PyStr.len s).
Proof.
  unfold PyStr.len, PyStr.slice_to.
  revert s; induction n as [|n IH]; intros [|c s]; simpl; try done.
  now rewrite IH.
Qed.

Lemma slice_to_short (n : nat) (s : string) :
  PyStr.len s <= n -> PyStr.slice_to n s = s.
Proof.
  unfold PyStr.len, PyStr.slice_to.
  revert s; induction n as [|n IH]; intros [|c s]; simpl; intros H; try done.
  - lia.
  - f_equal. apply IH. lia.
Qed.

Section Cut.
Context {E : Env}.

(** X8. The string [scrape_text] returns for a page that is fetched and
    parsed is a prefix of the joined text of the cleaned document, as long as
    that text up to 1000 characters: the whole text when it has at most 1000
    characters, its first 1000 otherwise. *)
Theorem scrape_text_truncates (url : string) (st : state E)
        (response : Response) (st1 : state E) (root : Bs4.node) :
  fetch url st = (Return response, st1) ->
  BeautifulSoup E (text response) = Return root ->
  exists s,
    scrape_text url st = (Return s, st1) /\
    Str.prefix s (Page.joined_text root) = true /\
    PyStr.len s = Nat.min 1000 (PyStr.len (Page.joined_text root)) /\
    (PyStr.len (Page.joined_text root) <= 1000 -> s = Page.joined_text root).
Proof.
  intros Hf Hp. rewrite scrape_text_cases, Hf, Hp.
  eexists. split; [reflexivity|]. fold (Page.joined_text root).
  split; [apply slice_to_prefix|]. split; [apply slice_to_len_min|].
  apply slice_to_short.
Qed.

End Cut.

Lemma scrape_text_truncates_witness :
  exists s,
    scrape_text "https://example.com/about" Demo.start = (Return s, Demo.start) /\
    Str.prefix s (Page.joined_text Demo.about_root) = true /\
    PyStr.len s = Nat.min 1000 (PyStr.len (Page.joined_text Demo.about_root)) /\
    (PyStr.len (Page.joined_text Demo.about_root) <= 1000 ->
     s = Page.joined_text Demo.about_root).
Proof.
  apply (scrape_text_truncates "https://example.com/about" Demo.start
           (mkResponse 200 "OK" "https://example.com/about" Demo.ABOUT_MARKUP)
           Demo.start Demo.about_root).
  - reflexivity.
  - reflexivity.
Defined.

(** ** The cleaned document *)

Section Cleaned.
Import Bs4 Spec.

Lemma named_in_remove_all names ids d :
  named_in names (remove_all ids d) = named_in names d.
Proof. now destruct d. Qed.

(** What is left after a removal was there before, and was not to be
    removed. *)
Lemma descendants_remove_all ids n d :
  d ∈ descendants (remove_all ids n) ->
  exists d0, d0 ∈ descendants n /\ (ident d0 ∉ ids) /\ d = remove_all ids d0.
Proof.
  revert d.
  induction n as [i s|i s|i name attrs contents IH] using node_forest_ind;
    intros d Hd; try (by apply elem_of_nil in Hd).
  simpl in Hd |- *.
  induction IH as [|c cs Hc _ IHcs]; [by apply elem_of_nil in Hd|].
  simpl in Hd. rewrite flat_map_app in Hd. apply elem_of_app in Hd as [Hd|Hd].
  - destruct (decide (ident c ∈ ids)) as [Hin|Hin].
    + rewrite bool_decide_eq_true_2 in Hd by done. by apply elem_of_nil in Hd.
    + rewrite bool_decide_eq_false_2 in Hd by done.
      simpl in Hd. rewrite app_nil_r in Hd.
      apply elem_of_cons in Hd as [->|Hd].
      * exists c. split; [simpl; left | done].
      * destruct (Hc d Hd) as (d0 & Hd0 & Hids & ->).
        exists d0. split; [|done]. simpl. right. apply elem_of_app. now left.
  - destruct (IHcs Hd) as (d0 & Hd0 & Hids & ->).
    exists d0. split; [|done]. simpl. right. apply elem_of_app. now right.
Qed.

Lemma filter_none {A} (P : A -> Prop) `{!forall x, Decision (P x)} (l : list A) :
  (forall x, x ∈ l -> ~ P x) -> filter P l = [].
Proof.
  induction l as [|a l IH]; intros Hall; [done|].
  rewrite filter_cons, decide_False by (apply Hall; left).
  apply IH. intros x Hx. apply Hall. now right.
Qed.

(** In a document of distinct objects, once the tags named in [names] are
    taken out none of them is found again. *)
Lemma without_finds_none (names : list string) (root : node) :
  NoDup (idents root) -> find_all names (Plain.without names root) = [].
Proof.
  intros Hnd. unfold Plain.without. rewrite fold_extract. unfold find_all at 1.
  apply filter_none. intros d Hd Hnamed.
  apply descendants_remove_all in Hd as (d0 & Hd0 & Hids & ->).
  change (named_in names (remove_all (ident <$> find_all names root) d0) = true)
    in Hnamed.
  rewrite named_in_remove_all in Hnamed.
  apply Hids. now apply find_all_idents.
Qed.

Context {E : Env}.

(** X9. For a page that is fetched and parsed into distinct objects, the
    text [scrape_text] returns is read from the tree its loop leaves: a tree
    with no script, style, header, footer or nav element anywhere, at
    whatever depth it stood, and one on which the loop, run again, changes
    nothing. *)
Theorem cleaned_has_no_removed_tag (url : string) (st : state E)
        (response : Response) (st1 : state E) (root : node) :
  NoDup (idents root) ->
  fetch url st = (Return response, st1) ->
  BeautifulSoup E (text response) = Return root ->
  scrape_text url st
  = (Return (PyStr.slice_to 1000
               (PyStr.join " "
                  (stripped_strings
                     (Plain.without [ "script"; "style"; "header"; "footer"; "nav" ]
                                    root)))),
     st1)
  /\ (forall i name attrs contents,
         Tag i name attrs contents
           ∈ descendants
               (Plain.without [ "script"; "style"; "header"; "footer"; "nav" ] root) ->
         name ∉ [ "script"; "style"; "header"; "footer"; "nav" ])
  /\ Plain.without [ "script"; "style"; "header"; "footer"; "nav" ]
       (Plain.without [ "script"; "style"; "header"; "footer"; "nav" ] root)
     = Plain.without [ "script"; "style"; "header"; "footer"; "nav" ] root.
Proof.
  intros Hnd Hf Hp.
  pose proof (without_finds_none [ "script"; "style"; "header"; "footer"; "nav" ]
                                 root Hnd) as Hnone.
  split; [|split].
  - now rewrite scrape_text_cases, Hf, Hp.
  - intros i name attrs contents Hd Hname.
    assert (Hin : Tag i name attrs contents
                  ∈ find_all [ "script"; "style"; "header"; "footer"; "nav" ]
                      (Plain.without [ "script"; "style"; "header"; "footer"; "nav" ]
                                     root)).
    { unfold find_all at 1. apply list_elem_of_filter. split; [|exact Hd].
      now apply bool_decide_eq_true_2. }
    rewrite Hnone in Hin. by apply elem_of_nil in Hin.
  - unfold Plain.without at 1. now rewrite Hnone.
Qed.

End Cleaned.

Lemma cleaned_has_no_removed_tag_witness :
  NoDup (Bs4.idents Press.press_root)
  /\ Plain.without [ "script"; "style"; "header"; "footer"; "nav" ] Press.press_root
     = Press.press_cleaned
  /\ Bs4.stripped_strings Press.press_cleaned = [ "We make things."; "Since 1999." ]
  /\ scrape_text "https://press.example" Press.start
     = (Return (PyStr.slice_to 1000
                  (PyStr.join " " (Bs4.stripped_strings Press.press_cleaned))),
        Press.start)
  /\ (forall i name attrs contents,
         Bs4.Tag i name attrs contents ∈ Bs4.descendants Press.press_cleaned ->
         name ∉ [ "script"; "style"; "header"; "footer"; "nav" ])
  /\ Plain.without [ "script"; "style"; "header"; "footer"; "nav" ] Press.press_cleaned
     = Press.press_cleaned.
Proof.
  split; [apply (bool_decide_unpack (NoDup _)); vm_compute; exact I|].
  split; [vm_compute; reflexivity|].
  split; [vm_compute; reflexivity|].
  apply (cleaned_has_no_removed_tag "https://press.example" Press.start
           (mkResponse 200 "OK" "https://press.example" Press.PRESS_MARKUP)
           Press.start Press.press_root).
  - apply (bool_decide_unpack (NoDup _)). vm_compute. exact I.
  - reflexivity.
  - reflexivity.
Defined.

(** ** The text sent to the model *)

Lemma len_app (a b : string) : PyStr.len (a +:+ b) = PyStr.len a + PyStr.len b.
Proof. unfold PyStr.len. induction a as [|c a IH]; simpl; [done | now rewrite IH]. Qed.

Lemma len_join_le (m : nat) (texts : list string) :
  Forall (fun t => PyStr.len t <= m) texts ->
  PyStr.len (PyStr.join " " texts) <= (m + 1) * length texts - 1.
Proof.
  unfold PyStr.join. induction 1 as [|t texts Ht Hall IH]; [simpl; lia|].
  destruct texts as [|t' texts].
  - simpl. lia.
  - change (Str.concat " " (t :: t' :: texts))
      with (t +:+ " " +:+ Str.concat " " (t' :: texts)).
    rewrite !len_app. change (PyStr.len " ") with 1.
    cbn [length] in *. nia.
Qed.

Section Combined.
Context {E : Env}.

Lemma scrape_text_Return_len url (st : state E) s st' :
  scrape_text url st = (Return s, st') -> PyStr.len s <= 1000.
Proof.
  rewrite scrape_text_cases.
  destruct (fetch url st) as [[response|e] st1].
  - destruct (BeautifulSoup E (text response)); [|discriminate].
    intros [= <- _]. apply slice_to_len.
  - destruct (is_RequestException e); [|discriminate].
    intros [= <- _]. simpl. lia.
Qed.

Lemma generate_scrape_text_Return pages (st : state E) texts st' :
  generate scrape_text pages st = (Return texts, st') ->
  length texts = length pages /\ Forall (fun t => PyStr.len t <= 1000) texts.
Proof.
  revert st texts st'. induction pages as [|page pages IH]; intros st texts st' H.
  - injection H as <- _. split; [done | constructor].
  - cbn [generate] in H.
    apply bind_inv_Return in H as (s & st1 & Hs & H).
    apply bind_inv_Return in H as (rest & st2 & Hrest & H).
    injection H as <- _. apply IH in Hrest as [Hlen Hall].
    split; [simpl; lia|]. constructor; [|exact Hall].
    eapply scrape_text_Return_len, Hs.
Qed.

(** X10. The text [main] hands to [extract_details] for a site with n
    discovered pages has at most 1001 n - 1 characters: at most 1000 for each
    page, and a space between two pages. *)
Theorem combined_text_bound (pages : list string) (st : state E)
        (texts : list string) (st' : state E) :
  generate scrape_text pages st = (Return texts, st') ->
  length texts = length pages
  /\ PyStr.len (PyStr.join " " texts) <= 1001 * length pages - 1.
Proof.
  intros H. apply generate_scrape_text_Return in H as [Hlen Hall].
  split; [exact Hlen|]. rewrite <- Hlen. apply (len_join_le 1000 texts Hall).
Qed.

End Combined.

Lemma combined_text_bound_witness :
  length [ "We make things."; EmptyString ] = 2
  /\ PyStr.len (PyStr.join " " [ "We make things."; EmptyString ]) <= 1001 * 2 - 1.
Proof.
  apply (combined_text_bound
           [ "https://example.com/about"; "https://dead.example/about" ]
           Demo.start
           [ "We make things."; EmptyString ]
           (snd (generate scrape_text
                   [ "https://example.com/about"; "https://dead.example/about" ]
                   Demo.start))).
  vm_compute. reflexivity.
Defined.

(** ** The prompt *)

Lemma prefix_app (s b : string) : Str.prefix s (s +:+ b) = true.
Proof.
  induction s as [|c s IH]; simpl; [now destruct b|].
  destruct (N.eq_dec c c); [exact IH | done].
Qed.

Lemma contains_app_middle (a s b : string) :
  PyStr.contains s (a +:+ s +:+ b) = true.
Proof.
  induction a as [|c a IH].
  - change (EmptyString +:+ s +:+ b) with (s +:+ b).
    destruct (s +:+ b) eqn:Hsb; cbn [PyStr.contains];
      rewrite <- Hsb, prefix_app; reflexivity.
  - change (String c a +:+ s +:+ b) with (String c (a +:+ s +:+ b)).
    cbn [PyStr.contains]. rewrite IH. apply orb_true_r.
Qed.

Lemma append_inj_l (a x y : string) : a +:+ x = a +:+ y -> x = y.
Proof. induction a as [|c a IH]; simpl; [done|]. intros [= H]. auto. Qed.

Lemma append_inj_r (b x y : string) : x +:+ b = y +:+ b -> x = y.
Proof.
  revert y. induction x as [|c x IH]; intros [|c' y] H.
  - reflexivity.
  - apply (f_equal PyStr.len) in H.
    rewrite (len_app EmptyString b), (len_app (String c' y) b) in H.
    unfold PyStr.len in H. simpl in H. lia.
  - apply (f_equal PyStr.len) in H.
    rewrite (len_app EmptyString b), (len_app (String c x) b) in H.
    unfold PyStr.len in H. simpl in H. lia.
  - change (String c (x +:+ b) = String c' (y +:+ b)) in H.
    injection H as -> H. f_equal. auto.
Qed.

(** X11. The prompt holds the text it was built from, unchanged, and two
    different texts never give the same prompt. *)
Theorem prompt_of_embeds_text :
  (forall text, PyStr.contains text (prompt_of text) = true)
  /\ (forall text1 text2, prompt_of text1 = prompt_of text2 -> text1 = text2).
Proof.
  unfold prompt_of.
  generalize (PyStr.join PyStr.nl prompt_lines_before_text) as head.
  generalize (PyStr.nl +:+ PyStr.join PyStr.nl prompt_lines_after_text) as tail.
  intros tail head. split.
  - intros text. apply contains_app_middle.
  - intros text1 text2 H. apply append_inj_l in H. now apply append_inj_r in H.
Qed.

Lemma prompt_of_embeds_text_witness :
  PyStr.contains "We make things." (prompt_of "We make things.") = true
  /\ (prompt_of " " = prompt_of " " -> " " = " ").
Proof.
  split.
  - exact (proj1 prompt_of_embeds_text "We make things.").
  - exact (proj2 prompt_of_embeds_text " " " ").
Defined.

(** ** What [extract_details] returns and whom it calls *)

Lemma rstrip_idem (s : string) : PyStr.rstrip (PyStr.rstrip s) = PyStr.rstrip s.
Proof.
  induction s as [|c s IH]; [done|].
  cbn [PyStr.rstrip]. destruct (PyStr.rstrip s) as [|c' r] eqn:Hr.
  - destruct (PyStr.isspace c) eqn:Hc; [done|].
    cbn [PyStr.rstrip]. now rewrite Hc.
  - cbn [PyStr.rstrip]. cbn [PyStr.rstrip] in IH.
    destruct (match PyStr.rstrip r with
              | EmptyString =>
                  if PyStr.isspace c' then EmptyString else String c' EmptyString
              | String a s0 => String c' (String a s0)
              end) as [|c'' r'] eqn:Hrr; [discriminate|].
    now rewrite IH.
Qed.

Lemma lstrip_head (s : string) :
  PyStr.lstrip s = EmptyString
  \/ exists c t, PyStr.lstrip s = String c t /\ PyStr.isspace c = false.
Proof.
  induction s as [|c s IH]; [now left|].
  cbn [PyStr.lstrip]. destruct (PyStr.isspace c) eqn:Hc; [exact IH|].
  right. eauto.
Qed.

Lemma rstrip_head (c : N) (t : string) :
  PyStr.isspace c = false -> exists r, PyStr.rstrip (String c t) = String c r.
Proof.
  intros Hc. cbn [PyStr.rstrip]. destruct (PyStr.rstrip t).
  - rewrite Hc. eauto.
  - eauto.
Qed.

(** A stripped string has no white space left at either end. *)
Lemma strip_stripped (s : string) :
  PyStr.lstrip (PyStr.strip s) = PyStr.strip s
  /\ PyStr.rstrip (PyStr.strip s) = PyStr.strip s.
Proof.
  unfold PyStr.strip. split; [|apply rstrip_idem].
  destruct (lstrip_head s) as [->|(c & t & -> & Hc)]; [done|].
  destruct (rstrip_head c t Hc) as [r ->].
  cbn [PyStr.lstrip]. now rewrite Hc.
Qed.

Section Details.
Context {E : Env}.

(** X12. Whatever [extract_details] returns, the model's reply or the empty
    string of the error path, has no white space at its start or at its
    end. *)
Theorem extract_details_stripped (text : string) (st : state E)
        (details : string) (st' : state E) :
  extract_details text st = (Return details, st') ->
  PyStr.lstrip details = details /\ PyStr.rstrip details = details.
Proof.
  unfold extract_details, try_except.
  destruct (ask (prompt_of text) st) as [[answer|e] st1] eqn:Hask.
  - intros [= <- _]. unfold ask in Hask.
    apply bind_inv_Return in Hask as (model & st2 & _ & Hask).
    apply bind_inv_Return in Hask as (response & st3 & _ & Hask).
    apply bind_inv_Return in Hask as (raw & st4 & _ & Hask).
    injection Hask as <- _. apply strip_stripped.
  - destruct (is_RequestException e); [|discriminate].
    unfold bind, print, ret. intros [= <- _]. done.
Qed.

(** X13. [extract_details] calls the model service once, with a model of
    [MODELS] and the prompt built from its text, when [random.choice] draws
    inside the list: however the call ends, the world is left as that one call
    left it.  Were the draw outside the list, no call would be made at all. *)
Theorem extract_details_one_call (text : string) (st : state E)
        (i : nat) (w1 : World E) :
  randbelow E (length MODELS) (world st) = (i, w1) ->
  (forall model,
      MODELS !! i = Some model ->
      model ∈ MODELS /\
      world (snd (extract_details text st))
      = snd (generate_content E model (prompt_of text) w1))
  /\ (MODELS !! i = None ->
      extract_details text st
      = (Raise (Exception IndexError "list index out of range"),
         mkState w1 (stdout st) (files st))).
Proof.
  intros Hi. split.
  - intros model Hm. split; [eapply list_elem_of_lookup_2, Hm|].
    unfold extract_details, try_except, ask, random_choice, bind, call, lift, ret.
    rewrite Hi. cbn. rewrite Hm. cbn.
    destruct (generate_content E model (prompt_of text) w1) as [[r|e] w2]; cbn.
    + destruct (reply_text r) as [answer|e]; cbn; [done|].
      destruct (is_RequestException e); done.
    + destruct (is_RequestException e); done.
  - intros Hm.
    unfold extract_details, try_except, ask, random_choice, bind, call, lift, ret.
    rewrite Hi. cbn. rewrite Hm. reflexivity.
Qed.

End Details.

Lemma extract_details_stripped_witness :
  extract_details "We make things." Demo.start
  = (Return "Not Available", Spec.after Demo.start [prompt_of "We make things."] [])
  /\ PyStr.lstrip "Not Available" = "Not Available"
  /\ PyStr.rstrip "Not Available" = "Not Available".
Proof.
  split; [reflexivity|].
  apply (extract_details_stripped "We make things." Demo.start "Not Available"
           (Spec.after Demo.start [prompt_of "We make things."] [])).
  reflexivity.
Defined.

Lemma extract_details_one_call_witness :
  (forall model,
      MODELS !! 0 = Some model ->
      model ∈ MODELS /\
      world (snd (extract_details "We make things." Demo.start_offline))
      = snd (generate_content Demo.env_offline model (prompt_of "We make things.") []))
  /\ (MODELS !! 0 = None ->
      extract_details "We make things." Demo.start_offline
      = (Raise (Exception IndexError "list index out of range"),
         mkState (E := Demo.env_offline) [] [] ∅)).
Proof.
  apply (extract_details_one_call "We make things." Demo.start_offline 0 []).
  reflexivity.
Defined.

(** ** The rows of a run without the model *)

Section Down.
Context {E : Env}.

Lemma extract_details_service_down text (st : state E) details st' :
  Worlds.service_down E ->
  extract_details text st = (Return details, st') -> details = EmptyString.
Proof.
  intros Hdown. unfold extract_details, try_except.
  destruct (ask (prompt_of text) st) as [[answer|e] st1] eqn:Hask.
  - exfalso. unfold ask in Hask.
    apply bind_inv_Return in Hask as (model & st2 & _ & Hask).
    apply bind_inv_Return in Hask as (response & st3 & Hcall & _).
    unfold call in Hcall.
    destruct (Hdown model (prompt_of text) (world st2)) as (e & w' & Hg & _).
    rewrite Hg in Hcall. discriminate.
  - destruct (is_RequestException e); [|discriminate].
    unfold bind, print, ret. now intros [= <- _].
Qed.

Lemma process_site_service_down results url (st : state E) results' st' :
  Worlds.service_down E ->
  process_site results url st = (Return results', st') ->
  results' = results ++ [ Spec.record_of url EmptyString ].
Proof.
  intros Hdown H. unfold process_site in H.
  apply bind_inv_Return in H as (_ & st1 & _ & H).
  apply bind_inv_Return in H as (pages & st2 & _ & H).
  apply bind_inv_Return in H as (texts & st3 & _ & H).
  unfold record_site in H.
  apply bind_inv_Return in H as (details & st4 & Hd & H).
  apply bind_inv_Return in H as (_ & st5 & _ & H).
  apply (extract_details_service_down _ _ _ _ Hdown) in Hd as ->.
  unfold ret in H. now injection H as <- _.
Qed.

Lemma for_each_process_site_service_down urls results (st : state E) results' st' :
  Worlds.service_down E ->
  for_each urls process_site results st = (Return results', st') ->
  results' = results
             ++ zip_with Spec.record_of urls (replicate (length urls) EmptyString).
Proof.
  intros Hdown. revert results st.
  induction urls as [|url urls IH]; intros results st H.
  - injection H as <- _. now rewrite app_nil_r.
  - cbn [for_each] in H. apply bind_inv_Return in H as (r1 & st1 & H1 & H).
    apply (process_site_service_down _ _ _ _ _ Hdown) in H1 as ->.
    apply IH in H as ->. now rewrite <- app_assoc.
Qed.

(** X14. With the model service down, a run of [main] that comes to its end
    has written the header and one row per seed URL whose second cell is
    empty. *)
Theorem main_service_down (st st' : state E) :
  Worlds.service_down E ->
  main st = (Return tt, st') ->
  files st' !! OUTPUT_FILE
  = Some ([ "URL"; "Extracted Details" ]
          :: zip_with Spec.row_of URLS (replicate (length URLS) EmptyString)).
Proof.
  intros Hdown H. unfold main, main_over in H.
  apply bind_inv_Return in H as (results & st1 & Hloop & H).
  apply (for_each_process_site_service_down _ _ _ _ _ Hdown) in Hloop as ->.
  apply bind_inv_Return in H as ([] & st2 & Hcsv & H).
  unfold to_csv in Hcsv. apply bind_inv_Return in Hcsv as ([] & st3 & _ & Hw).
  unfold write_file in Hw. injection Hw as <-.
  unfold print in H. injection H as <-.
  cbn [files]. rewrite lookup_insert_eq. reflexivity.
Qed.

End Down.

Lemma Demo_offline_service_down : Worlds.service_down Demo.env_offline.
Proof. intros model prompt w. simpl. eauto. Qed.

Lemma main_service_down_witness :
  Worlds.service_down Demo.env_offline
  /\ fst (main Demo.start_offline) = Return tt
  /\ files (snd (main Demo.start_offline)) !! OUTPUT_FILE
     = Some ([ "URL"; "Extracted Details" ]
             :: zip_with Spec.row_of URLS (replicate (length URLS) EmptyString)).
Proof.
  split; [exact Demo_offline_service_down|].
  split; [vm_compute; reflexivity|].
  apply (main_service_down Demo.start_offline (snd (main Demo.start_offline))
           Demo_offline_service_down).
  vm_compute. reflexivity.
Defined.
